(** * earth / UtiliGEE: the export-and-materialize pipeline of [core.py]

    A shallow embedding of the three functions of [core.py]:
    - [extract_geotiff_from_gee]: the Earth Engine export and its poll loop,
    - [arr_from_geotiff]: three raster bands into an 8-bit RGB array,
    - [save_img]: the array written under an output directory.

    Everything outside the repository (the [ee] client, [rasterio], [numpy],
    [PIL], the file system) is an explicit environment; the functions are
    the source's statements in order, over a trace of the external calls.
    Nobody else changes the file system while a function runs. *)

From Stdlib Require Import ZArith Floats Ascii String DecimalString.
From stdpp Require Import base gmap sets list strings.

Local Open Scope string_scope.
Local Open Scope list_scope.

(** ** Python strings *)

(** [str.endswith]: the last [len(suffix)] characters are [suffix]. *)
Definition endswith (s suffix : string) : bool :=
  (String.length suffix <=? String.length s)%nat
  && String.eqb
       (String.substring (String.length s - String.length suffix)
                  (String.length suffix) s)
       suffix.

(** ** Exceptions and results *)

Record PyExn := { exn_class : string; exn_msg : string }.

Inductive Result (A : Type) :=
| Returned (a : A)
| Raised (e : PyExn).
Arguments Returned {A} a.
Arguments Raised {A} e.

(** ** The Earth Engine export, [extract_geotiff_from_gee] *)

(** The composite image handle: what [dataset.select(bands).mean()] was
    built from. *)
Record ImageHandle := {
  img_dataset : string;
  img_start : string;
  img_end : string;
  img_bands : list string
}.

(** Calls into the [ee] client library, with their arguments. *)
Inductive EECall :=
| ee_Initialize
| ee_Geometry_Rectangle (coords : list float)
| ee_ImageCollection (dataset_name : string)
| ee_Filter_date (start_date end_date : string)
| collection_filter
| collection_select (bands : list string)
| collection_mean
| ee_Export_image_toDrive
    (image : ImageHandle) (description folder : string) (scale : Z)
    (region : list float)
| task_start.

(** What the functions of [core.py] do to the outside, in order. *)
Inductive Event :=
| Call (c : EECall)
| TaskActive (answer : Result bool)
| Sleep (seconds : Z)
| Print (line : string)
| RasterioOpen (path : string)
| DatasetRead (band : Z)
| PathMkdir (anchor : string) (parts : list string)
| ImageSave (fname : string).

(** The remote service: which library calls raise, the id it assigns to
    the task, and its answer to the k-th [task.active()] (k from 0). *)
Record Remote := {
  ee_raises : EECall -> option PyExn;
  task_id : string;
  task_active : nat -> Result bool
}.

(** A run: the events so far and how it ended. *)
Definition Run (A : Type) : Type := list Event * Result A.

#[export] Instance run_ret : MRet Run := fun A a => ([], Returned a).

#[export] Instance run_bind : MBind Run := fun A B f m =>
  match m with
  | (t, Returned a) => let '(t', r) := f a in (t ++ t', r)
  | (t, Raised e) => (t, Raised e)
  end.

Definition emit (ev : Event) : Run unit := ([ev], Returned tt).

Section WithRemote.
Variable env : Remote.

Definition call (c : EECall) : Run unit :=
  match ee_raises env c with
  | None => ([Call c], Returned tt)
  | Some e => ([Call c], Raised e)
  end.

(** Lines 55-56: [while task.active(): time.sleep(1)], from the k-th
    status query on. [None] when the fuel runs out first. *)
Fixpoint poll (fuel k : nat) : option (Run unit) :=
  match fuel with
  | O => None
  | S fuel' =>
      match task_active env k with
      | Raised e => Some ([TaskActive (Raised e)], Raised e)
      | Returned false => Some ([TaskActive (Returned false)], Returned tt)
      | Returned true =>
          match poll fuel' (S k) with
          | None => None
          | Some (t, r) =>
              Some (TaskActive (Returned true) :: Sleep 1 :: t, r)
          end
      end
  end.

(** Lines 30-54: everything up to the poll loop. *)
Definition submit (dataset_name : string) (bands : list string)
    (start_date end_date output_dir desc : string) (mpp : Z)
    (xmin ymin xmax ymax : float) : Run unit :=
  call ee_Initialize ;;
  call (ee_Geometry_Rectangle [xmin; ymin; xmax; ymax]) ;;
  call (ee_ImageCollection dataset_name) ;;
  call (ee_Filter_date start_date end_date) ;;
  call collection_filter ;;
  call (collection_select bands) ;;
  call collection_mean ;;
  let image := {| img_dataset := dataset_name; img_start := start_date;
                  img_end := end_date; img_bands := bands |} in
  let fname_root := desc in
  call (ee_Export_image_toDrive image fname_root output_dir mpp
          [xmin; ymin; xmax; ymax]) ;;
  call task_start ;;
  emit (Print ("Working on export task (id: " +:+ task_id env +:+ ").")).

Definition completion_notice (output_dir fname_root : string) : string :=
  "Export complete. File available in Drive at /" +:+ output_dir +:+ "/"
    +:+ fname_root +:+ ".tif".

Definition extract_geotiff_from_gee (fuel : nat)
    (dataset_name : string) (bands : list string)
    (start_date end_date output_dir desc : string) (mpp : Z)
    (xmin ymin xmax ymax : float) : option (Run unit) :=
  match submit dataset_name bands start_date end_date output_dir desc mpp
               xmin ymin xmax ymax with
  | (t, Raised e) => Some (t, Raised e)
  | (t, Returned _) =>
      match poll fuel 0 with
      | None => None
      | Some (t', Raised e) => Some (t ++ t', Raised e)
      | Some (t', Returned _) =>
          Some (t ++ t' ++ [Print (completion_notice output_dir desc)],
                Returned tt)
      end
  end.

End WithRemote.

(** The region invariant of the specification, [xmin < xmax] and
    [ymin < ymax], on Python floats. *)
Definition region_valid (xmin ymin xmax ymax : float) : bool :=
  PrimFloat.ltb xmin xmax && PrimFloat.ltb ymin ymax.

(** A service on which nothing raises and the job is over at the first
    status query. *)
Definition quiet_remote : Remote :=
  {| ee_raises := fun _ => None;
     task_id := "T0";
     task_active := fun _ => Returned false |}.


(** ** The raster conversion, [arr_from_geotiff] *)

(** The samples of one band as [rasterio] reads them, in the band's own
    sample type: an integer type, or a floating type (a binary32 sample
    is the binary64 value it denotes). Complex sample types are not
    covered. *)
Inductive BandData :=
| IntBand (cells : nat -> nat -> Z)
| FloatBand (cells : nat -> nat -> float).

(** A raster file as [rasterio] presents it: [count] bands, every one of
    the data set's [height] x [width]. [band b] holds the samples of band
    [b] (1-indexed) by row and column. *)
Record Raster := {
  count : nat;
  height : nat;
  width : nat;
  band : Z -> BandData
}.

(** [numpy] arrays: a shape and the cells within it. A band read from a
    raster keeps the band's sample type; the image array is of [uint8]. *)
Record ndarray2 := {
  shape2 : nat * nat;
  data2 : BandData
}.

Record ndarray3 := {
  shape3 : nat * nat * nat;
  at3 : nat -> nat -> nat -> Z
}.

(** The cells of an array as nested lists, [ndarray.tolist()]. *)
Definition tolist3 (a : ndarray3) : list (list (list Z)) :=
  let '(h, w, d) := shape3 a in
  map (fun i => map (fun j => map (fun k => at3 a i j k) (seq 0 d)) (seq 0 w))
      (seq 0 h).

(** The cast of an integer sample into a [uint8] cell: the low eight
    bits, as the C cast behind [numpy]'s assignment gives them. *)
Definition astype_uint8 (z : Z) : Z := z mod 256.

(** A floating value with its fraction discarded; nothing for a NaN or
    an infinity. *)
Definition trunc_float (x : float) : option Z :=
  match Prim2SF x with
  | S754_zero _ => Some 0%Z
  | S754_finite s m e =>
      let a := Z.shiftl (Z.pos m) e in
      Some (if s then (- a)%Z else a)
  | _ => None
  end.

(** The cast of a floating sample into a [uint8] cell. C defines it when
    the value without its fraction is in 0..255, and that is the cell;
    every other case is the platform's, [platform x], of which only the
    low eight bits can be stored. *)
Definition float_astype_uint8 (platform : float -> Z) (x : float) : Z :=
  match trunc_float x with
  | Some z =>
      if ((0 <=? z) && (z <? 256))%Z then z else (platform x mod 256)%Z
  | None => (platform x mod 256)%Z
  end.

(** The [uint8] cell made of the sample at row [i], column [j]. *)
Definition cell_uint8 (platform : float -> Z) (src : ndarray2) (i j : nat)
    : Z :=
  match data2 src with
  | IntBand cells => astype_uint8 (cells i j)
  | FloatBand cells => float_astype_uint8 platform (cells i j)
  end.

(** [np.zeros((h, w, d), dtype=np.uint8)]. *)
Definition np_zeros_uint8 (h w d : nat) : ndarray3 :=
  {| shape3 := (h, w, d); at3 := fun _ _ _ => 0%Z |}.

(** [img_arr[:,:,k] = src]: channel [k] of every pixel takes the cast
    sample of [src]; the other channels keep their cells. Every band of a
    data set has the data set's shape, so nothing is broadcast. *)
Definition assign_channel (platform : float -> Z) (img_arr : ndarray3)
    (k : nat) (src : ndarray2) : ndarray3 :=
  {| shape3 := shape3 img_arr;
     at3 := fun i j c =>
       if (c =? k)%nat then cell_uint8 platform src i j
       else at3 img_arr i j c |}.

(** A [PIL] image made of an array: [Image.fromarray] of a
    height x width x 3 [uint8] array is an RGB image of size
    (width, height) over the same cells. *)
Record Image := {
  im_mode : string;
  im_size : nat * nat;
  im_data : ndarray3
}.

Definition Image_fromarray (a : ndarray3) : Image :=
  let '(h, w, _) := shape3 a in
  {| im_mode := "RGB"; im_size := (w, h); im_data := a |}.

(** Paths as [pathlib] holds them: an anchor and the parts below it. *)
Definition PurePath : Type := string * list string.

(** The identity of a file: two path strings name the same file when the
    operating system resolves them to the same identity. *)
Definition FileId : Type := PurePath.

(** What a file holds: a raster, an image [save_img] wrote, or what a
    failed write left behind. *)
Inductive FileContent :=
| RasterFile (src : Raster)
| ImageFile (img : Image)
| PartialFile.

(** The local file system and the libraries that touch it:
    - [file_id]: the file a path string names;
    - [files]: the files there are;
    - [dirs]: the directories there are;
    - [mkdir_raises]: whether making a directory with its parents
      fails, with which exception and after how many of the parents
      were made;
    - [save_raises]: whether [Image.save] to a path fails, with which
      exception, and whether a partial file is left at the path;
    - [open_written]: what [rasterio] makes of a file that is not a
      raster file: an image written ([Some]) or a partial file ([None]);
    - [float_cast]: the platform's cast of a floating value that C
      leaves undefined. *)
Record World := {
  file_id : string -> FileId;
  files : gmap FileId FileContent;
  dirs : gset PurePath;
  mkdir_raises : PurePath -> option (PyExn * nat);
  save_raises : string -> option (PyExn * bool);
  open_written : string -> option Image -> Result Raster;
  float_cast : float -> Z
}.

Definition with_dirs (w : World) (d : gset PurePath) : World :=
  {| file_id := file_id w; files := files w; dirs := d;
     mkdir_raises := mkdir_raises w; save_raises := save_raises w;
     open_written := open_written w; float_cast := float_cast w |}.

Definition with_files (w : World) (f : gmap FileId FileContent) : World :=
  {| file_id := file_id w; files := f; dirs := dirs w;
     mkdir_raises := mkdir_raises w; save_raises := save_raises w;
     open_written := open_written w; float_cast := float_cast w |}.

Definition RasterioIOError (path : string) : PyExn :=
  {| exn_class := "RasterioIOError";
     exn_msg := path +:+ ": No such file or directory" |}.

(** [str(z)] of an integer. *)
Definition str_of_Z (z : Z) : string :=
  NilEmpty.string_of_int (Z.to_int z).

(** [repr] of a tuple of integers. *)
Definition tuple_repr (l : list Z) : string :=
  match l with
  | [] => "()"
  | [x] => "(" +:+ str_of_Z x +:+ ",)"
  | x :: rest =>
      "(" +:+ str_of_Z x
      +:+ fold_right (fun y s => ", " +:+ str_of_Z y +:+ s) ")" rest
  end.

(** [src.indexes]: the band numbers of a data set. *)
Definition indexes (src : Raster) : list Z :=
  map Z.of_nat (seq 1 (count src)).

(** The exception of [src.read(i)] for a band number the data set does
    not have. *)
Definition IndexError (i : Z) (src : Raster) : PyExn :=
  {| exn_class := "IndexError";
     exn_msg := "band index " +:+ str_of_Z i +:+ " out of range (not in "
                +:+ tuple_repr (indexes src) +:+ ")" |}.

(** [rasterio.open(fname)]. *)
Definition rasterio_open (w : World) (fname : string) : Run Raster :=
  match files w !! file_id w fname with
  | Some (RasterFile src) => ([RasterioOpen fname], Returned src)
  | Some (ImageFile img) =>
      ([RasterioOpen fname], open_written w fname (Some img))
  | Some PartialFile => ([RasterioOpen fname], open_written w fname None)
  | None => ([RasterioOpen fname], Raised (RasterioIOError fname))
  end.

(** [src.read(i)]: band [i], numbered from 1. *)
Definition dataset_read (src : Raster) (i : Z) : Run ndarray2 :=
  if ((1 <=? i) && (i <=? Z.of_nat (count src)))%Z
  then ([DatasetRead i],
        Returned {| shape2 := (height src, width src); data2 := band src i |})
  else ([DatasetRead i], Raised (IndexError i src)).

(** Lines 78-79: the path that is opened. *)
Definition geotiff_path (fname : string) : string :=
  if negb (endswith fname ".tif") then fname +:+ ".tif" else fname.

Definition arr_from_geotiff (w : World) (fname : string)
    (r_channel g_channel b_channel : Z) : Run Image :=
  let fname := geotiff_path fname in
  src ← rasterio_open w fname;
  r ← dataset_read src r_channel;
  g ← dataset_read src g_channel;
  b ← dataset_read src b_channel;
  let img_arr := np_zeros_uint8 (fst (shape2 r)) (snd (shape2 r)) 3 in
  let img_arr := assign_channel (float_cast w) img_arr 0 r in
  let img_arr := assign_channel (float_cast w) img_arr 1 g in
  let img_arr := assign_channel (float_cast w) img_arr 2 b in
  mret (Image_fromarray img_arr).

(** The defaults of the signature: [r_channel=1, g_channel=2, b_channel=3]. *)
Definition arr_from_geotiff_default (w : World) (fname : string) : Run Image :=
  arr_from_geotiff w fname 1 2 3.

(** ** The image writer, [save_img] *)

(** Modelled from the spec: [trim_slash_from_path] of the module [util],
    which [core.py] imports and the sources do not contain. The
    specification of [save] gives its behaviour: it normalizes
    [output_dir] by stripping any trailing path separators. *)
Fixpoint trim_slash_from_path (path : string) : string :=
  match path with
  | "" => ""
  | String c rest =>
      let rest' := trim_slash_from_path rest in
      if String.eqb rest' "" && Ascii.eqb c "/"%char then "" else String c rest'
  end.

(** [s.split(sep)] for a one-character separator. *)
Fixpoint split_on (sep : Ascii.ascii) (s : string) : list string :=
  match s with
  | "" => [""]
  | String c rest =>
      match split_on sep rest with
      | [] => [String c ""]
      | p :: ps => if Ascii.eqb c sep then "" :: p :: ps else String c p :: ps
      end
  end.

(** The root of a POSIX path: one slash, except that exactly two leading
    slashes are kept. *)
Definition path_anchor (s : string) : string :=
  if String.prefix "///" s then "/"
  else if String.prefix "//" s then "//"
  else if String.prefix "/" s then "/"
  else "".

(** [pathlib.Path(s)]: empty parts and [.] parts are dropped. *)
Definition Path (s : string) : PurePath :=
  (path_anchor s,
   filter (fun p => p ≠ "" ∧ p ≠ ".") (split_on "/"%char s)).

(** The path itself and [Path.parents] below the anchor, longest first. *)
Definition path_and_parents (p : PurePath) : list PurePath :=
  map (fun n => (fst p, take n (snd p))) (rev (seq 1 (length (snd p)))).

(** [Path.parents] below the anchor, shortest first: the order in which
    missing parents are made. *)
Definition path_parents (p : PurePath) : list PurePath :=
  map (fun n => (fst p, take n (snd p))) (seq 1 (length (snd p) - 1)).

(** [Path(output_dir).mkdir(parents=True, exist_ok=True)]. A directory
    that is there already is no error. A call that raises has made the
    first [made] parents before. *)
Definition path_mkdir (w : World) (p : PurePath) : World * Run unit :=
  match mkdir_raises w p with
  | Some (e, made) =>
      (with_dirs w (dirs w ∪ list_to_set (take made (path_parents p))),
       ([PathMkdir (fst p) (snd p)], Raised e))
  | None =>
      (with_dirs w (dirs w ∪ list_to_set (path_and_parents p)),
       ([PathMkdir (fst p) (snd p)], Returned tt))
  end.

(** [img_arr.save(fname)]: the file that [fname] names holds the image
    afterwards, whatever it held before. A write that raises leaves the
    file as it was or leaves a partial file. *)
Definition image_save (w : World) (img_arr : Image) (fname : string)
    : World * Run unit :=
  match save_raises w fname with
  | Some (e, false) => (w, ([ImageSave fname], Raised e))
  | Some (e, true) =>
      (with_files w (<[file_id w fname := PartialFile]> (files w)),
       ([ImageSave fname], Raised e))
  | None =>
      (with_files w (<[file_id w fname := ImageFile img_arr]> (files w)),
       ([ImageSave fname], Returned tt))
  end.

(** Line 111: [f"{output_dir}/{name}.{format}"]. *)
Definition save_fname (output_dir name format : string) : string :=
  output_dir +:+ "/" +:+ name +:+ "." +:+ format.

Definition save_img (w : World) (img_arr : Image) (name format output_dir : string)
    : World * Run unit :=
  let output_dir := trim_slash_from_path output_dir in
  let fname := save_fname output_dir name format in
  match path_mkdir w (Path output_dir) with
  | (w1, (t1, Raised e)) => (w1, (t1, Raised e))
  | (w1, (t1, Returned _)) =>
      let '(w2, (t2, r)) := image_save w1 img_arr fname in
      (w2, (t1 ++ t2, r))
  end.

(** The defaults of the signature: [format='png', output_dir="out/"]. *)
Definition save_img_default (w : World) (img_arr : Image) (name : string)
    : World * Run unit :=
  save_img w img_arr name "png" "out/".

(** The path [save_img] hands to the encoder. *)
Definition save_img_target (name format output_dir : string) : string :=
  save_fname (trim_slash_from_path output_dir) name format.

(** ** The command line, [main] of [utiligee.py] *)

(** What [parser.parse_args()] returns. The region and the bands are
    typed as the defaults of the parser have them, a list of floats and
    a list of band names. *)
Record Namespace := {
  ns_data : string;
  ns_region : list float;
  ns_start : string;
  ns_end : string;
  ns_bands : list string;
  ns_output_dir : string;
  ns_desc : string;
  ns_mpp : Z
}.

(** The exception of [xmin, ymin, xmax, ymax = args.region] on a list of
    [n] values, [n] other than 4. *)
Definition unpack_error (n : nat) : PyExn :=
  {| exn_class := "ValueError";
     exn_msg :=
       match n with
       | 0 => "not enough values to unpack (expected 4, got 0)"
       | 1 => "not enough values to unpack (expected 4, got 1)"
       | 2 => "not enough values to unpack (expected 4, got 2)"
       | 3 => "not enough values to unpack (expected 4, got 3)"
       | _ => "too many values to unpack (expected 4)"
       end |}.

(** Line 53: [f'{tmp_dir}/{desc}.tif'] with [tmp_dir = 'raw']. *)
Definition geotiff_local_path (desc : string) : string :=
  "raw" +:+ "/" +:+ desc +:+ ".tif".

(** Lines 39-59 of [utiligee.py], from the parsed arguments on: the
    export, then the conversion of the local raster, then the save. An
    exception ends the run where it is raised. *)
Definition main (env : Remote) (fuel : nat) (w : World) (args : Namespace)
    : option (World * Run unit) :=
  match ns_region args with
  | [xmin; ymin; xmax; ymax] =>
      let dataset_name := ns_data args in
      let start_date := ns_start args in
      let end_date := ns_end args in
      let desc := ns_desc args in
      let mpp := ns_mpp args in
      let bands := ns_bands args in
      let output_dir := ns_output_dir args in
      match extract_geotiff_from_gee env fuel dataset_name bands start_date
              end_date output_dir desc mpp xmin ymin xmax ymax with
      | None => None
      | Some (t1, Raised e) => Some (w, (t1, Raised e))
      | Some (t1, Returned _) =>
          match arr_from_geotiff_default w (geotiff_local_path desc) with
          | (t2, Raised e) => Some (w, (t1 ++ t2, Raised e))
          | (t2, Returned img_arr) =>
              let '(w', (t3, r)) := save_img_default w img_arr desc in
              Some (w', (t1 ++ t2 ++ t3, r))
          end
      end
  | region => Some (w, ([], Raised (unpack_error (length region))))
  end.

(** ** Vocabulary of the properties *)

(** No call into the client library raises. *)
Definition accepts_all (env : Remote) : Prop :=
  ∀ c, ee_raises env c = None.

(** The job answers "active" to the first [n] status queries and "not
    active" to the next one. *)
Definition finishes_at (env : Remote) (n : nat) : Prop :=
  (∀ i, i < n → task_active env i = Returned true)
  ∧ task_active env n = Returned false.

(** [n] rounds of the loop body: a status query answered "active", then
    [time.sleep(1)]. *)
Definition polling (n : nat) : list Event :=
  concat (replicate n [TaskActive (Returned true); Sleep 1]).

Definition is_status_query (ev : Event) : bool :=
  match ev with TaskActive _ => true | _ => false end.

Definition status_queries (t : list Event) : nat :=
  length (filter (fun ev => is_status_query ev = true) t).

(** The exception a run ended with is the one its last external call
    raised. *)
Definition raised_by_remote (env : Remote) (t : list Event) (e : PyExn) : Prop :=
  (∃ c, last t = Some (Call c) ∧ ee_raises env c = Some e)
  ∨ (∃ k, last t = Some (TaskActive (Raised e)) ∧ task_active env k = Raised e).

(** The events of [submit] when nothing raises. *)
Definition submit_events (env : Remote) (dataset_name : string)
    (bands : list string) (start_date end_date output_dir desc : string)
    (mpp : Z) (xmin ymin xmax ymax : float) : list Event :=
  [ Call ee_Initialize;
    Call (ee_Geometry_Rectangle [xmin; ymin; xmax; ymax]);
    Call (ee_ImageCollection dataset_name);
    Call (ee_Filter_date start_date end_date);
    Call collection_filter;
    Call (collection_select bands);
    Call collection_mean;
    Call (ee_Export_image_toDrive
            {| img_dataset := dataset_name; img_start := start_date;
               img_end := end_date; img_bands := bands |}
            desc output_dir mpp [xmin; ymin; xmax; ymax]);
    Call task_start;
    Print ("Working on export task (id: " +:+ task_id env +:+ ").") ].

(** The sample of a band at row [i], column [j] is the whole number
    given, as an integer [z] or as the floating value [x]. *)
Definition sample_is (d : BandData) (i j : nat) (z : Z) (x : float) : Prop :=
  match d with
  | IntBand cells => cells i j = z
  | FloatBand cells => cells i j = x
  end.

(** A three-band raster whose bands 1, 2, 3 hold 10, 20, 30 throughout,
    in an integer or a floating sample type. *)
Definition bands_10_20_30 (src : Raster) : Prop :=
  count src = 3
  ∧ ∀ i j, i < height src → j < width src →
      sample_is (band src 1) i j 10 10
      ∧ sample_is (band src 2) i j 20 20
      ∧ sample_is (band src 3) i j 30 30.

(** A band number the raster has. *)
Definition band_in_range (src : Raster) (i : Z) : Prop :=
  (1 <= i <= Z.of_nat (count src))%Z.

(** The RGB image of three bands of a raster: channel 0 the cells of
    band [r_channel], channel 1 those of [g_channel], channel 2 those of
    [b_channel]. *)
Definition rgb_image (platform : float -> Z) (src : Raster)
    (r_channel g_channel b_channel : Z) : Image :=
  let cell b i j :=
    cell_uint8 platform
      {| shape2 := (height src, width src); data2 := band src b |} i j in
  {| im_mode := "RGB";
     im_size := (width src, height src);
     im_data :=
       {| shape3 := (height src, width src, 3);
          at3 := fun i j c =>
            if (c =? 2)%nat then cell b_channel i j
            else if (c =? 1)%nat then cell g_channel i j
            else if (c =? 0)%nat then cell r_channel i j
            else 0%Z |} |}.

(** ** Sample inputs *)

(** The region the command line passes when [--region] is not given
    (the four defaults of [utiligee.py], as binary64 values):
    xmin = -74.02065034469021, ymin = 40.7175360876491,
    xmax = -73.96855111678494, ymax = 40.69053317927286. *)
Definition default_xmin : float := (-0x1.2815255d2c61ep+6)%float.
Definition default_ymin : float := 0x1.45bd838f7138bp+5%float.
Definition default_xmax : float := (-0x1.27dfcbdd2c61ep+6)%float.
Definition default_ymax : float := 0x1.458636426e3d2p+5%float.

(** A service on which nothing raises and the job stays active for the
    first two status queries. *)
Definition busy_remote : Remote :=
  {| ee_raises := fun _ => None;
     task_id := "T1";
     task_active := fun k => Returned (Nat.ltb k 2) |}.

Definition not_a_raster (path : string) : PyExn :=
  {| exn_class := "RasterioIOError";
     exn_msg := "'" +:+ path
                +:+ "' not recognized as being in a supported file format." |}.

(** A file system with nothing in it on which nothing fails. Path
    strings name the same file when [pathlib] reads them as the same
    path. *)
Definition empty_disk : World :=
  {| file_id := Path;
     files := ∅;
     dirs := ∅;
     mkdir_raises := fun _ => None;
     save_raises := fun _ => None;
     open_written := fun path _ => Raised (not_a_raster path);
     float_cast := fun _ => 0%Z |}.

(** The same with one raster file. *)
Definition world_with (path : string) (src : Raster) : World :=
  with_files empty_disk {[ Path path := RasterFile src ]}.

(** A 2 x 3 raster of three bands of integer samples holding 10, 20
    and 30. *)
Definition flat_raster : Raster :=
  {| count := 3; height := 2; width := 3;
     band := fun b => IntBand (fun _ _ => (10 * b)%Z) |}.

(** A 2 x 3 raster of three bands of floating samples holding 10, 20
    and 30, as a mean composite is exported. *)
Definition mean_raster : Raster :=
  {| count := 3; height := 2; width := 3;
     band := fun b =>
       FloatBand (fun _ _ =>
         if (b =? 1)%Z then 10%float
         else if (b =? 2)%Z then 20%float
         else 30%float) |}.

(** A 1 x 2 raster of 32-bit integer samples outside the 8-bit range. *)
Definition wide_raster : Raster :=
  {| count := 3; height := 1; width := 2;
     band := fun b =>
       IntBand (fun _ j =>
         if (b =? 1)%Z then 300%Z
         else if (b =? 2)%Z then (-1)%Z
         else (70000 + Z.of_nat j)%Z) |}.

Definition disk_full : PyExn :=
  {| exn_class := "OSError"; exn_msg := "[Errno 28] No space left on device" |}.

(** A file system without directories on which every image write fails
    and leaves a partial file. *)
Definition full_disk : World :=
  {| file_id := Path;
     files := ∅;
     dirs := ∅;
     mkdir_raises := fun _ => None;
     save_raises := fun fname => Some (disk_full, true);
     open_written := fun path _ => Raised (not_a_raster path);
     float_cast := fun _ => 0%Z |}.

(** A 1 x 1 RGB image. *)
Definition one_pixel : Image :=
  Image_fromarray
    {| shape3 := (1, 1, 3); at3 := fun _ _ c => Z.of_nat (10 * (c + 1)) |}.

(** The image of a conversion that returned; [one_pixel] otherwise. *)
Definition image_of (run : Run Image) : Image :=
  match snd run with
  | Returned img => img
  | Raised _ => one_pixel
  end.

(** The sample rasters converted with the default channels. *)
Definition flat_image : Image :=
  image_of (arr_from_geotiff (world_with "raw/nyc.tif" flat_raster)
              "raw/nyc" 1 2 3).

Definition wide_image : Image :=
  image_of (arr_from_geotiff (world_with "wide.tif" wide_raster)
              "wide" 1 2 3).

(** The arguments when only [--desc] is given: the defaults of the
    parser. *)
Definition default_args (desc : string) : Namespace :=
  {| ns_data := "USDA/NAIP/DOQQ";
     ns_region := [default_xmin; default_ymin; default_xmax; default_ymax];
     ns_start := "2017-01-01";
     ns_end := "2018-12-31";
     ns_bands := ["R"; "G"; "B"];
     ns_output_dir := "UtiliGEE_Exports";
     ns_desc := desc;
     ns_mpp := 30 |}.

(** A service whose job never leaves the active state. *)
Definition stuck_remote : Remote :=
  {| ee_raises := fun _ => None;
     task_id := "T2";
     task_active := fun _ => Returned true |}.

Definition not_signed_in : PyExn :=
  {| exn_class := "EEException";
     exn_msg := "Please authorize access to your Earth Engine account" |}.

(** A service on which [ee.Initialize()] raises. *)
Definition unauthorized_remote : Remote :=
  {| ee_raises := fun c =>
       match c with ee_Initialize => Some not_signed_in | _ => None end;
     task_id := "";
     task_active := fun _ => Returned false |}.

Definition connection_lost : PyExn :=
  {| exn_class := "EEException"; exn_msg := "Connection reset by peer" |}.

(** A service whose second status query raises. *)
Definition flaky_remote : Remote :=
  {| ee_raises := fun _ => None;
     task_id := "T3";
     task_active := fun k =>
       if Nat.eqb k 1 then Raised connection_lost else Returned true |}.

Definition name_too_long : PyExn :=
  {| exn_class := "OSError"; exn_msg := "[Errno 36] File name too long" |}.

(** A file system on which making a directory fails after its first two
    parents were made. *)
Definition long_name_disk : World :=
  {| file_id := Path;
     files := ∅;
     dirs := ∅;
     mkdir_raises := fun _ => Some (name_too_long, 2);
     save_raises := fun _ => None;
     open_written := fun path _ => Raised (not_a_raster path);
     float_cast := fun _ => 0%Z |}.

(** * Properties *)

(** ** Strings *)

Lemma string_length_app (s t : string) :
  String.length (s +:+ t) = String.length s + String.length t.
Proof. induction s as [|c s IH]; simpl; [done | by rewrite IH]. Qed.

Lemma substring_whole (s : string) :
  String.substring 0 (String.length s) s = s.
Proof. induction s as [|c s IH]; simpl; [done | by rewrite IH]. Qed.

Lemma substring_app_skip (s t : string) (n m : nat) :
  String.substring (String.length s + n) m (s +:+ t) = String.substring n m t.
Proof. induction s as [|c s IH]; simpl; [done | exact IH]. Qed.

Lemma endswith_app (s suffix : string) :
  endswith (s +:+ suffix) suffix = true.
Proof.
  unfold endswith. rewrite string_length_app.
  replace (String.length s + String.length suffix - String.length suffix)
    with (String.length s + 0) by lia.
  rewrite substring_app_skip, substring_whole, String.eqb_refl.
  rewrite andb_true_r. apply Nat.leb_le. lia.
Qed.

(** The suffix test looks at the last [len(suffix)] characters only. *)
Lemma endswith_app_tail (s t suffix : string) :
  String.length suffix <= String.length t →
  endswith (s +:+ t) suffix = endswith t suffix.
Proof.
  intros Hlen. unfold endswith. rewrite string_length_app.
  replace (String.length s + String.length t - String.length suffix)
    with (String.length s + (String.length t - String.length suffix)) by lia.
  rewrite substring_app_skip. f_equal.
  rewrite (proj2 (Nat.leb_le _ _) Hlen). apply Nat.leb_le. lia.
Qed.

(** ** The export and its poll loop *)

Section PollLoop.
Variable env : Remote.

Lemma polling_S (n : nat) :
  polling (S n) = TaskActive (Returned true) :: Sleep 1 :: polling n.
Proof. reflexivity. Qed.

(** The loop returns as soon as a status query is answered "not active". *)
Lemma poll_finishes (n : nat) : ∀ fuel k,
  (∀ i, i < n → task_active env (k + i) = Returned true) →
  task_active env (k + n) = Returned false →
  n < fuel →
  poll env fuel k
  = Some (polling n ++ [TaskActive (Returned false)], Returned tt).
Proof.
  induction n as [|n IH]; intros fuel k Hact Hend Hfuel.
  - destruct fuel as [|fuel]; [lia|]. simpl.
    rewrite Nat.add_0_r in Hend. by rewrite Hend.
  - destruct fuel as [|fuel]; [lia|]. simpl.
    specialize (Hact 0 ltac:(lia)) as H0. rewrite Nat.add_0_r in H0.
    rewrite H0, (IH fuel (S k)).
    + reflexivity.
    + intros i Hi. replace (S k + i) with (k + S i) by lia. apply Hact. lia.
    + replace (S k + n) with (k + S n) by lia. exact Hend.
    + lia.
Qed.

(** Whatever the loop returns, it queried until the answer was no longer
    "active", sleeping after every "active" answer. *)
Lemma poll_inv : ∀ fuel k t r,
  poll env fuel k = Some (t, r) →
  ∃ n, n < fuel
    ∧ (∀ i, i < n → task_active env (k + i) = Returned true)
    ∧ match r with
      | Returned _ =>
          task_active env (k + n) = Returned false
          ∧ t = polling n ++ [TaskActive (Returned false)]
      | Raised e =>
          task_active env (k + n) = Raised e
          ∧ t = polling n ++ [TaskActive (Raised e)]
      end.
Proof.
  induction fuel as [|fuel IH]; intros k t r Hrun; [done|].
  simpl in Hrun.
  destruct (task_active env k) as [[|]|e] eqn:Hk.
  - destruct (poll env fuel (S k)) as [[t' r']|] eqn:Hrec; [|done].
    injection Hrun as <- <-.
    destruct (IH _ _ _ Hrec) as (n & Hn & Hact & Hr).
    exists (S n). split; [lia|]. split.
    + intros [|i] Hi; [by rewrite Nat.add_0_r|].
      replace (k + S i) with (S k + i) by lia. apply Hact. lia.
    + replace (k + S n) with (S k + n) by lia. rewrite polling_S.
      destruct r' as [u|e]; destruct Hr as [-> ->]; done.
  - injection Hrun as <- <-. exists 0. rewrite Nat.add_0_r.
    repeat split; [lia | intros; lia | done].
  - injection Hrun as <- <-. exists 0. rewrite Nat.add_0_r.
    repeat split; [lia | intros; lia | done].
Qed.

Lemma status_queries_app (t1 t2 : list Event) :
  status_queries (t1 ++ t2) = status_queries t1 + status_queries t2.
Proof. unfold status_queries. by rewrite filter_app, length_app. Qed.

Lemma status_queries_polling (n : nat) : status_queries (polling n) = n.
Proof.
  induction n as [|n IH]; [done|].
  rewrite polling_S.
  change (status_queries (TaskActive (Returned true) :: Sleep 1 :: polling n))
    with (S (status_queries (polling n))).
  by rewrite IH.
Qed.

End PollLoop.

Section Submit.
Variable env : Remote.
Variables (dataset_name : string) (bands : list string).
Variables (start_date end_date output_dir desc : string) (mpp : Z).
Variables (xmin ymin xmax ymax : float).

Local Abbreviation the_submit :=
  (submit env dataset_name bands start_date end_date output_dir desc mpp
          xmin ymin xmax ymax).
Local Abbreviation the_events :=
  (submit_events env dataset_name bands start_date end_date output_dir desc
                 mpp xmin ymin xmax ymax).

Local Ltac step_calls :=
  unfold submit, call, emit, mbind, run_bind;
  repeat (match goal with
          | |- context [ee_raises env ?c] =>
              destruct (ee_raises env c) eqn:?; simpl
          end).

(** A submission that goes through made the nine calls, in order, with
    the arguments as given. *)
Lemma submit_returned (t : list Event) (u : unit) :
  the_submit = (t, Returned u) → t = the_events.
Proof.
  step_calls; intros H; try discriminate H.
  by injection H as <-.
Qed.

(** A submission that fails fails with what its last call raised. *)
Lemma submit_raised (t : list Event) (e : PyExn) :
  the_submit = (t, Raised e) →
  ∃ c, last t = Some (Call c) ∧ ee_raises env c = Some e.
Proof.
  step_calls; intros H; try discriminate H;
    injection H as <- <-; eexists; (split; [reflexivity | eassumption]).
Qed.

Lemma submit_accepted :
  accepts_all env → the_submit = (the_events, Returned tt).
Proof.
  intros Hok. unfold submit, call, emit, mbind, run_bind.
  by rewrite !Hok.
Qed.

Lemma status_queries_submit_events : status_queries the_events = 0.
Proof. reflexivity. Qed.

End Submit.

Section Extract.
Variables (dataset_name : string) (bands : list string).
Variables (start_date end_date output_dir desc : string) (mpp : Z).
Variables (xmin ymin xmax ymax : float).

Local Abbreviation the_extract env fuel :=
  (extract_geotiff_from_gee env fuel dataset_name bands start_date end_date
     output_dir desc mpp xmin ymin xmax ymax).
Local Abbreviation the_events env :=
  (submit_events env dataset_name bands start_date end_date output_dir desc
                 mpp xmin ymin xmax ymax).
Local Abbreviation the_end :=
  [TaskActive (Returned false); Print (completion_notice output_dir desc)].

(** With a service that accepts the calls and a job that is over at the
    query number [n], more than [n] units of fuel give the result. *)
Lemma extract_returns env n fuel :
  accepts_all env → finishes_at env n → n < fuel →
  the_extract env fuel
  = Some (the_events env ++ polling n ++ the_end, Returned tt).
Proof.
  intros Hok [Hact Hend] Hfuel. unfold extract_geotiff_from_gee.
  rewrite submit_accepted by done.
  rewrite (poll_finishes env n fuel 0) by done.
  by rewrite <- (assoc_L (++) (polling n)).
Qed.

(** A run that returns went through the whole submission and then polled
    until the job was over. *)
Lemma extract_returned_inv env fuel t :
  the_extract env fuel = Some (t, Returned tt) →
  ∃ n, finishes_at env n ∧ n < fuel
     ∧ t = the_events env ++ polling n ++ the_end.
Proof.
  unfold extract_geotiff_from_gee.
  destruct (submit _ _ _ _ _ _ _ _ _ _ _ _) as [pre [u|e]] eqn:Hsub; [|done].
  apply submit_returned in Hsub as ->.
  destruct (poll env fuel 0) as [[t' [u'|e]]|] eqn:Hpoll; [|done..].
  intros [= <-].
  destruct (poll_inv env _ _ _ _ Hpoll) as (n & Hn & Hact & Hend & ->).
  exists n. split; [by split|]. split; [done|].
  by rewrite <- (assoc_L (++) (polling n)).
Qed.

(** A run that ends with an exception ends with the one an external call
    raised. *)
Lemma extract_raised_inv env fuel t e :
  the_extract env fuel = Some (t, Raised e) → raised_by_remote env t e.
Proof.
  unfold extract_geotiff_from_gee.
  destruct (submit _ _ _ _ _ _ _ _ _ _ _ _) as [pre [u|e']] eqn:Hsub.
  - destruct (poll env fuel 0) as [[t' [u'|e']]|] eqn:Hpoll; [done| |done].
    intros [= <- <-]. right.
    destruct (poll_inv env _ _ _ _ Hpoll) as (n & Hn & Hact & Hend & ->).
    exists (0 + n). split; [|done].
    by rewrite (assoc_L (++)), last_snoc.
  - intros [= <- <-]. left. by eapply submit_raised.
Qed.

End Extract.

(** C1 (as amended): [extract_geotiff_from_gee] checks no region. For
    every four bounds, ordered or not, a service that accepts the calls
    and a job that ends make the function return normally: the bounds
    are handed unchanged to [ee.Geometry.Rectangle], the export of that
    rectangle is submitted and started, and the job is polled to its
    end. And every exception the function ends with is one an external
    call raised, never one of its own. *)
Theorem extract_checks_no_region
    (dataset_name : string) (bands : list string)
    (start_date end_date output_dir desc : string) (mpp : Z)
    (xmin ymin xmax ymax : float) :
  (∀ env n fuel, accepts_all env → finishes_at env n → n < fuel →
     extract_geotiff_from_gee env fuel dataset_name bands start_date
       end_date output_dir desc mpp xmin ymin xmax ymax
     = Some
         ([ Call ee_Initialize;
            Call (ee_Geometry_Rectangle [xmin; ymin; xmax; ymax]);
            Call (ee_ImageCollection dataset_name);
            Call (ee_Filter_date start_date end_date);
            Call collection_filter;
            Call (collection_select bands);
            Call collection_mean;
            Call (ee_Export_image_toDrive
                    {| img_dataset := dataset_name; img_start := start_date;
                       img_end := end_date; img_bands := bands |}
                    desc output_dir mpp [xmin; ymin; xmax; ymax]);
            Call task_start;
            Print ("Working on export task (id: " +:+ task_id env +:+ ").") ]
          ++ polling n
          ++ [ TaskActive (Returned false);
               Print (completion_notice output_dir desc) ],
          Returned tt))
  ∧ (∀ env fuel t e,
       extract_geotiff_from_gee env fuel dataset_name bands start_date
         end_date output_dir desc mpp xmin ymin xmax ymax
       = Some (t, Raised e) →
       raised_by_remote env t e).
Proof.
  split.
  - intros env n fuel Hok Hfin Hfuel.
    rewrite (extract_returns _ _ _ _ _ _ _ _ _ _ _ env n fuel) by done.
    reflexivity.
  - intros env fuel t e. apply extract_raised_inv.
Qed.

(** The amended C1 at a region with both pairs of bounds swapped, on a job
    that is active for two queries. *)
Lemma extract_checks_no_region_witness :
  region_valid 2 5 1 4 = false
  ∧ extract_geotiff_from_gee busy_remote 3 "USDA/NAIP/DOQQ"
      ["R"; "G"; "B"] "2017-01-01" "2018-12-31" "UtiliGEE_Exports"
      "nyc" 30 2 5 1 4
    = Some
        ([ Call ee_Initialize;
           Call (ee_Geometry_Rectangle [2; 5; 1; 4]%float);
           Call (ee_ImageCollection "USDA/NAIP/DOQQ");
           Call (ee_Filter_date "2017-01-01" "2018-12-31");
           Call collection_filter;
           Call (collection_select ["R"; "G"; "B"]);
           Call collection_mean;
           Call (ee_Export_image_toDrive
                   {| img_dataset := "USDA/NAIP/DOQQ";
                      img_start := "2017-01-01";
                      img_end := "2018-12-31";
                      img_bands := ["R"; "G"; "B"] |}
                   "nyc" "UtiliGEE_Exports" 30 [2; 5; 1; 4]%float);
           Call task_start;
           Print "Working on export task (id: T1)." ]
         ++ [ TaskActive (Returned true); Sleep 1;
              TaskActive (Returned true); Sleep 1 ]
         ++ [ TaskActive (Returned false);
              Print "Export complete. File available in Drive at /UtiliGEE_Exports/nyc.tif" ],
         Returned tt).
Proof.
  split; [reflexivity|].
  apply (proj1 (extract_checks_no_region "USDA/NAIP/DOQQ" ["R"; "G"; "B"]
                  "2017-01-01" "2018-12-31" "UtiliGEE_Exports" "nyc" 30
                  2 5 1 4) busy_remote 2 3).
  - intros c. reflexivity.
  - split; [|reflexivity].
    intros [|[|i]] Hi; [reflexivity | reflexivity | lia].
  - lia.
Defined.

(** C1 fails as stated: the default region of the command line has
    [ymin > ymax], and on a service that accepts it the function makes
    all its remote calls and returns; no exception is raised. *)
Lemma default_region_is_exported :
  region_valid default_xmin default_ymin default_xmax default_ymax = false
  ∧ PrimFloat.leb default_ymax default_ymin = true
  ∧ extract_geotiff_from_gee quiet_remote 1 "USDA/NAIP/DOQQ"
      ["R"; "G"; "B"] "2017-01-01" "2018-12-31" "UtiliGEE_Exports" "nyc" 30
      default_xmin default_ymin default_xmax default_ymax
    = Some
        ([ Call ee_Initialize;
           Call (ee_Geometry_Rectangle
                   [default_xmin; default_ymin; default_xmax; default_ymax]);
           Call (ee_ImageCollection "USDA/NAIP/DOQQ");
           Call (ee_Filter_date "2017-01-01" "2018-12-31");
           Call collection_filter;
           Call (collection_select ["R"; "G"; "B"]);
           Call collection_mean;
           Call (ee_Export_image_toDrive
                   {| img_dataset := "USDA/NAIP/DOQQ";
                      img_start := "2017-01-01";
                      img_end := "2018-12-31";
                      img_bands := ["R"; "G"; "B"] |}
                   "nyc" "UtiliGEE_Exports" 30
                   [default_xmin; default_ymin; default_xmax; default_ymax]);
           Call task_start;
           Print "Working on export task (id: T0).";
           TaskActive (Returned false);
           Print "Export complete. File available in Drive at /UtiliGEE_Exports/nyc.tif" ],
         Returned tt).
Proof. repeat split; vm_compute; reflexivity. Qed.

(** C2: the poll loop of [extract_geotiff_from_gee]. A run that returns
    has, after the submission, [n] rounds "status query answered active,
    then sleep one second" and one last status query answered "not
    active" before the completion notice: [n + 1] queries, never none,
    and a sleep between any two of them. And the loop does return: when
    the job is over at query [n], more than [n] units of fuel give that
    run. *)
Theorem poll_loop_waits_until_inactive
    (env : Remote) (dataset_name : string) (bands : list string)
    (start_date end_date output_dir desc : string) (mpp : Z)
    (xmin ymin xmax ymax : float) :
  (∀ fuel t,
     extract_geotiff_from_gee env fuel dataset_name bands start_date
       end_date output_dir desc mpp xmin ymin xmax ymax
     = Some (t, Returned tt) →
     ∃ n, finishes_at env n
        ∧ t = submit_events env dataset_name bands start_date end_date
                output_dir desc mpp xmin ymin xmax ymax
              ++ polling n
              ++ [TaskActive (Returned false);
                  Print (completion_notice output_dir desc)]
        ∧ status_queries t = S n)
  ∧ (∀ n fuel, accepts_all env → finishes_at env n → n < fuel →
       extract_geotiff_from_gee env fuel dataset_name bands start_date
         end_date output_dir desc mpp xmin ymin xmax ymax
       = Some (submit_events env dataset_name bands start_date end_date
                 output_dir desc mpp xmin ymin xmax ymax
               ++ polling n
               ++ [TaskActive (Returned false);
                   Print (completion_notice output_dir desc)],
               Returned tt)).
Proof.
  split.
  - intros fuel t Hrun.
    destruct (extract_returned_inv _ _ _ _ _ _ _ _ _ _ _ _ _ _ Hrun)
      as (n & Hfin & _ & ->).
    exists n. split; [done|]. split; [done|].
    rewrite !status_queries_app, status_queries_polling.
    rewrite status_queries_submit_events.
    change (status_queries [TaskActive (Returned false);
                            Print (completion_notice output_dir desc)])
      with 1.
    lia.
  - intros n fuel. apply extract_returns.
Qed.

(** C2 on a job that is active for two status queries. *)
Lemma poll_loop_waits_until_inactive_witness :
  extract_geotiff_from_gee busy_remote 3 "USDA/NAIP/DOQQ" ["R"; "G"; "B"]
    "2017-01-01" "2018-12-31" "UtiliGEE_Exports" "nyc" 30 1 4 2 5
  = Some
      (submit_events busy_remote "USDA/NAIP/DOQQ" ["R"; "G"; "B"]
         "2017-01-01" "2018-12-31" "UtiliGEE_Exports" "nyc" 30 1 4 2 5
       ++ [ TaskActive (Returned true); Sleep 1;
            TaskActive (Returned true); Sleep 1;
            TaskActive (Returned false);
            Print "Export complete. File available in Drive at /UtiliGEE_Exports/nyc.tif" ],
       Returned tt).
Proof.
  apply (proj2 (poll_loop_waits_until_inactive busy_remote "USDA/NAIP/DOQQ"
                  ["R"; "G"; "B"] "2017-01-01" "2018-12-31"
                  "UtiliGEE_Exports" "nyc" 30 1 4 2 5) 2 3).
  - intros c. reflexivity.
  - split; [|reflexivity].
    intros [|[|i]] Hi; [reflexivity | reflexivity | lia].
  - lia.
Defined.


(** ** The raster conversion *)

Lemma string_app_assoc (s t u : string) : (s +:+ t) +:+ u = s +:+ (t +:+ u).
Proof.
  induction s as [|c s IH]; [done|].
  change (String c ((s +:+ t) +:+ u) = String c (s +:+ (t +:+ u))).
  by rewrite IH.
Qed.

Lemma geotiff_path_suffixed (fname : string) :
  endswith fname ".tif" = true → geotiff_path fname = fname.
Proof. unfold geotiff_path. by intros ->. Qed.

Lemma geotiff_path_bare (fname : string) :
  endswith fname ".tif" = false → geotiff_path fname = fname +:+ ".tif".
Proof. unfold geotiff_path. by intros ->. Qed.

Lemma geotiff_path_endswith (fname : string) :
  endswith (geotiff_path fname) ".tif" = true.
Proof.
  unfold geotiff_path. destruct (endswith fname ".tif") eqn:Hsuf; simpl.
  - exact Hsuf.
  - apply endswith_app.
Qed.

Lemma map_seq_replicate {A} (f : nat → A) (c : A) (n : nat) : ∀ start,
  (∀ i, start ≤ i < start + n → f i = c) →
  map f (seq start n) = replicate n c.
Proof.
  induction n as [|n IH]; intros start Hf; [done|]. simpl.
  rewrite Hf by lia. f_equal. apply IH. intros i Hi. apply Hf. lia.
Qed.



Lemma rasterio_open_raster (w : World) (fname : string) (src : Raster) :
  files w !! file_id w fname = Some (RasterFile src) →
  rasterio_open w fname = ([RasterioOpen fname], Returned src).
Proof. unfold rasterio_open. by intros ->. Qed.

Lemma rasterio_open_missing (w : World) (fname : string) :
  files w !! file_id w fname = None →
  rasterio_open w fname
  = ([RasterioOpen fname], Raised (RasterioIOError fname)).
Proof. unfold rasterio_open. by intros ->. Qed.

(** Opening is one event, the path as given. *)
Lemma rasterio_open_shape (w : World) (fname : string) :
  ∃ res, rasterio_open w fname = ([RasterioOpen fname], res).
Proof.
  unfold rasterio_open.
  destruct (files w !! file_id w fname) as [[src|img|]|]; by eexists.
Qed.

Lemma dataset_read_in_range (src : Raster) (i : Z) :
  band_in_range src i →
  dataset_read src i
  = ([DatasetRead i],
     Returned {| shape2 := (height src, width src); data2 := band src i |}).
Proof.
  intros [Hlo Hhi]. unfold dataset_read.
  rewrite (proj2 (Z.leb_le _ _) Hlo), (proj2 (Z.leb_le _ _) Hhi). done.
Qed.

Lemma dataset_read_out_of_range (src : Raster) (i : Z) :
  ¬ band_in_range src i →
  dataset_read src i = ([DatasetRead i], Raised (IndexError i src)).
Proof.
  intros Hout. unfold dataset_read, band_in_range in *.
  destruct (Z.leb_spec 1 i); simpl; [|done].
  destruct (Z.leb_spec i (Z.of_nat (count src))); [lia | done].
Qed.

Lemma band_in_range_dec (src : Raster) (i : Z) :
  band_in_range src i ∨ ¬ band_in_range src i.
Proof. unfold band_in_range. lia. Qed.

(** The conversion once the opening has returned a raster, at band
    numbers it has: the three bands are read in the order red, green,
    blue, and the image is that of the three bands. *)
Lemma arr_from_geotiff_opened (w : World) (fname : string) (src : Raster)
    (r_channel g_channel b_channel : Z) :
  rasterio_open w (geotiff_path fname)
  = ([RasterioOpen (geotiff_path fname)], Returned src) →
  band_in_range src r_channel →
  band_in_range src g_channel →
  band_in_range src b_channel →
  arr_from_geotiff w fname r_channel g_channel b_channel
  = ([RasterioOpen (geotiff_path fname); DatasetRead r_channel;
      DatasetRead g_channel; DatasetRead b_channel],
     Returned (rgb_image (float_cast w) src r_channel g_channel b_channel)).
Proof.
  intros Hopen Hr Hg Hb. unfold arr_from_geotiff.
  rewrite Hopen. unfold mbind, run_bind, mret, run_ret.
  rewrite !dataset_read_in_range by done. reflexivity.
Qed.

(** The conversion of a raster file that is there. *)
Lemma arr_from_geotiff_returns (w : World) (fname : string) (src : Raster)
    (r_channel g_channel b_channel : Z) :
  files w !! file_id w (geotiff_path fname) = Some (RasterFile src) →
  band_in_range src r_channel →
  band_in_range src g_channel →
  band_in_range src b_channel →
  arr_from_geotiff w fname r_channel g_channel b_channel
  = ([RasterioOpen (geotiff_path fname); DatasetRead r_channel;
      DatasetRead g_channel; DatasetRead b_channel],
     Returned (rgb_image (float_cast w) src r_channel g_channel b_channel)).
Proof.
  intros Hfile. apply arr_from_geotiff_opened.
  by apply rasterio_open_raster.
Qed.

(** The conversion when no file is there. *)
Lemma arr_from_geotiff_missing (w : World) (fname : string)
    (r_channel g_channel b_channel : Z) :
  files w !! file_id w (geotiff_path fname) = None →
  arr_from_geotiff w fname r_channel g_channel b_channel
  = ([RasterioOpen (geotiff_path fname)],
     Raised (RasterioIOError (geotiff_path fname))).
Proof.
  intros Hnone. unfold arr_from_geotiff.
  by rewrite rasterio_open_missing.
Qed.

(** Whatever happens next, the first thing the conversion does is open
    the normalized path. *)
Lemma arr_from_geotiff_opens (w : World) (fname : string)
    (r_channel g_channel b_channel : Z) :
  ∃ t, fst (arr_from_geotiff w fname r_channel g_channel b_channel)
       = RasterioOpen (geotiff_path fname) :: t.
Proof.
  unfold arr_from_geotiff, mbind, run_bind.
  destruct (rasterio_open_shape w (geotiff_path fname)) as [[src|e] ->];
    [|by eexists].
  match goal with
  | |- context [let '(t', r) := ?m in _] => destruct m as [t' res]
  end.
  by eexists.
Qed.

(** The conversion once the opening has returned a raster, at a band
    number it does not have: the first such number, in the order red,
    green, blue, ends the conversion. *)
Lemma arr_from_geotiff_band_error (w : World) (fname : string)
    (src : Raster) (r_channel g_channel b_channel : Z) :
  rasterio_open w (geotiff_path fname)
  = ([RasterioOpen (geotiff_path fname)], Returned src) →
  (¬ band_in_range src r_channel →
   arr_from_geotiff w fname r_channel g_channel b_channel
   = ([RasterioOpen (geotiff_path fname); DatasetRead r_channel],
      Raised (IndexError r_channel src)))
  ∧ (band_in_range src r_channel → ¬ band_in_range src g_channel →
     arr_from_geotiff w fname r_channel g_channel b_channel
     = ([RasterioOpen (geotiff_path fname); DatasetRead r_channel;
         DatasetRead g_channel],
        Raised (IndexError g_channel src)))
  ∧ (band_in_range src r_channel → band_in_range src g_channel →
     ¬ band_in_range src b_channel →
     arr_from_geotiff w fname r_channel g_channel b_channel
     = ([RasterioOpen (geotiff_path fname); DatasetRead r_channel;
         DatasetRead g_channel; DatasetRead b_channel],
        Raised (IndexError b_channel src))).
Proof.
  intros Hopen. unfold arr_from_geotiff. rewrite Hopen.
  unfold mbind, run_bind. repeat split.
  - intros Hr. by rewrite (dataset_read_out_of_range src r_channel).
  - intros Hr Hg. rewrite (dataset_read_in_range src r_channel) by done.
    by rewrite (dataset_read_out_of_range src g_channel).
  - intros Hr Hg Hb. rewrite (dataset_read_in_range src r_channel) by done.
    rewrite (dataset_read_in_range src g_channel) by done.
    by rewrite (dataset_read_out_of_range src b_channel).
Qed.

(** The conversion returns an image only when the opening returned a
    raster and the three band numbers are among its bands; the image is
    then that of the three bands. *)
Lemma arr_from_geotiff_returned_inv (w : World) (fname : string)
    (r_channel g_channel b_channel : Z) (t : list Event) (img : Image) :
  arr_from_geotiff w fname r_channel g_channel b_channel
  = (t, Returned img) →
  ∃ src,
    rasterio_open w (geotiff_path fname)
    = ([RasterioOpen (geotiff_path fname)], Returned src)
    ∧ band_in_range src r_channel
    ∧ band_in_range src g_channel
    ∧ band_in_range src b_channel
    ∧ t = [RasterioOpen (geotiff_path fname); DatasetRead r_channel;
           DatasetRead g_channel; DatasetRead b_channel]
    ∧ img = rgb_image (float_cast w) src r_channel g_channel b_channel.
Proof.
  intros Hrun.
  destruct (rasterio_open_shape w (geotiff_path fname)) as [[src|e] Hopen].
  - exists src. split; [done|].
    destruct (arr_from_geotiff_band_error w fname src r_channel g_channel
                b_channel Hopen) as (Hr & Hg & Hb).
    destruct (band_in_range_dec src r_channel) as [Hr'|Hr'];
      [|rewrite (Hr Hr') in Hrun; discriminate Hrun].
    destruct (band_in_range_dec src g_channel) as [Hg'|Hg'];
      [|rewrite (Hg Hr' Hg') in Hrun; discriminate Hrun].
    destruct (band_in_range_dec src b_channel) as [Hb'|Hb'];
      [|rewrite (Hb Hr' Hg' Hb') in Hrun; discriminate Hrun].
    rewrite (arr_from_geotiff_opened w fname src) in Hrun by done.
    by injection Hrun as <- <-.
  - unfold arr_from_geotiff in Hrun. rewrite Hopen in Hrun.
    discriminate Hrun.
Qed.

(** The cell made of a sample that is a whole number of 0..255, in an
    integer or a floating sample type, is that number. *)
Lemma cell_uint8_of_sample (platform : float → Z) (shape : nat * nat)
    (d : BandData) (i j : nat) (z : Z) (x : float) :
  sample_is d i j z x →
  (0 <= z < 256)%Z →
  float_astype_uint8 platform x = z →
  cell_uint8 platform {| shape2 := shape; data2 := d |} i j = z.
Proof.
  intros Hs Hz Hx. unfold cell_uint8. simpl.
  destruct d as [cells|cells]; simpl in Hs; rewrite Hs.
  - unfold astype_uint8. apply Z.mod_small. lia.
  - exact Hx.
Qed.

(** The conversion of the constant raster, at any three of its bands. *)
Lemma arr_from_geotiff_constant_bands (w : World) (fname : string)
    (src : Raster) (r_channel g_channel b_channel : Z) :
  files w !! file_id w (geotiff_path fname) = Some (RasterFile src) →
  bands_10_20_30 src →
  band_in_range src r_channel →
  band_in_range src g_channel →
  band_in_range src b_channel →
  ∃ img,
    arr_from_geotiff w fname r_channel g_channel b_channel
    = ([RasterioOpen (geotiff_path fname); DatasetRead r_channel;
        DatasetRead g_channel; DatasetRead b_channel], Returned img)
    ∧ im_mode img = "RGB"
    ∧ im_size img = (width src, height src)
    ∧ tolist3 (im_data img)
      = replicate (height src)
          (replicate (width src)
             [10 * r_channel; 10 * g_channel; 10 * b_channel]%Z).
Proof.
  intros Hfile [Hcount Hconst] Hr Hg Hb.
  rewrite (arr_from_geotiff_returns w fname src) by done.
  eexists. split; [reflexivity|]. split; [reflexivity|].
  split; [reflexivity|].
  assert (Hband : ∀ c i j, band_in_range src c →
            i < height src → j < width src →
            cell_uint8 (float_cast w)
              {| shape2 := (height src, width src); data2 := band src c |}
              i j
            = (10 * c)%Z).
  { intros c i j [Hlo Hhi] Hi Hj. rewrite Hcount in Hhi.
    destruct (Hconst i j Hi Hj) as (H1 & H2 & H3).
    assert (c = 1 ∨ c = 2 ∨ c = 3)%Z as [->|[->| ->]] by lia.
    - by apply (cell_uint8_of_sample _ _ _ _ _ _ _ H1).
    - by apply (cell_uint8_of_sample _ _ _ _ _ _ _ H2).
    - by apply (cell_uint8_of_sample _ _ _ _ _ _ _ H3). }
  unfold tolist3. simpl.
  apply map_seq_replicate. intros i Hi.
  apply map_seq_replicate. intros j Hj.
  rewrite !Hband by (done || lia). reflexivity.
Qed.

(** C3: a three-band raster holding 10, 20 and 30 in its bands 1, 2 and
    3, converted with the default channels, is an RGB image of the
    raster's width and height whose every pixel is (10, 20, 30). *)
Theorem convert_default_constant_bands (w : World) (fname : string)
    (src : Raster) :
  files w !! file_id w (geotiff_path fname) = Some (RasterFile src) →
  bands_10_20_30 src →
  ∃ img,
    arr_from_geotiff_default w fname
    = ([RasterioOpen (geotiff_path fname); DatasetRead 1; DatasetRead 2;
        DatasetRead 3], Returned img)
    ∧ im_mode img = "RGB"
    ∧ im_size img = (width src, height src)
    ∧ tolist3 (im_data img)
      = replicate (height src) (replicate (width src) [10; 20; 30]%Z).
Proof.
  intros Hfile Hsrc. pose proof Hsrc as [Hcount _].
  apply (arr_from_geotiff_constant_bands w fname src 1 2 3);
    try done; unfold band_in_range; lia.
Qed.

Lemma flat_raster_constant : bands_10_20_30 flat_raster.
Proof. split; [reflexivity|]. intros i j _ _. repeat split. Qed.

Lemma mean_raster_constant : bands_10_20_30 mean_raster.
Proof. split; [reflexivity|]. intros i j _ _. repeat split. Qed.

(** C3 on a 2 x 3 raster stored as [raw/nyc.tif]. *)
Lemma convert_default_constant_bands_witness :
  ∃ img,
    arr_from_geotiff_default (world_with "raw/nyc.tif" flat_raster) "raw/nyc"
    = ([RasterioOpen "raw/nyc.tif"; DatasetRead 1; DatasetRead 2;
        DatasetRead 3], Returned img)
    ∧ im_mode img = "RGB"
    ∧ im_size img = (3, 2)
    ∧ tolist3 (im_data img)
      = [ [[10; 20; 30]; [10; 20; 30]; [10; 20; 30]];
          [[10; 20; 30]; [10; 20; 30]; [10; 20; 30]] ]%Z.
Proof.
  apply (convert_default_constant_bands
           (world_with "raw/nyc.tif" flat_raster) "raw/nyc" flat_raster).
  - reflexivity.
  - exact flat_raster_constant.
Defined.

(** The same raster in floating samples, computed. *)
Example convert_mean_raster_cells :
  tolist3 (im_data (image_of (arr_from_geotiff_default
                                (world_with "raw/nyc.tif" mean_raster)
                                "raw/nyc")))
  = [ [[10; 20; 30]; [10; 20; 30]; [10; 20; 30]];
      [[10; 20; 30]; [10; 20; 30]; [10; 20; 30]] ]%Z.
Proof. reflexivity. Qed.

(** C4: on the same raster, red from band 3, green from band 1 and blue
    from band 2 give the pixel (30, 10, 20); and whichever three bands
    are chosen, channel 0 holds the red band's constant, channel 1 the
    green band's and channel 2 the blue band's. *)
Theorem convert_reordered_constant_bands (w : World) (fname : string)
    (src : Raster) :
  files w !! file_id w (geotiff_path fname) = Some (RasterFile src) →
  bands_10_20_30 src →
  (∃ img,
     arr_from_geotiff w fname 3 1 2
     = ([RasterioOpen (geotiff_path fname); DatasetRead 3; DatasetRead 1;
         DatasetRead 2], Returned img)
     ∧ tolist3 (im_data img)
       = replicate (height src) (replicate (width src) [30; 10; 20]%Z))
  ∧ (∀ r_channel g_channel b_channel,
       band_in_range src r_channel →
       band_in_range src g_channel →
       band_in_range src b_channel →
       ∃ img,
         arr_from_geotiff w fname r_channel g_channel b_channel
         = ([RasterioOpen (geotiff_path fname); DatasetRead r_channel;
             DatasetRead g_channel; DatasetRead b_channel], Returned img)
         ∧ tolist3 (im_data img)
           = replicate (height src)
               (replicate (width src)
                  [10 * r_channel; 10 * g_channel; 10 * b_channel]%Z)).
Proof.
  intros Hfile Hsrc. pose proof Hsrc as [Hcount _]. split.
  - destruct (arr_from_geotiff_constant_bands w fname src 3 1 2)
      as (img & Hrun & _ & _ & Hcells);
      try done; try (unfold band_in_range; lia).
    by exists img.
  - intros r g b Hr Hg Hb.
    destruct (arr_from_geotiff_constant_bands w fname src r g b)
      as (img & Hrun & _ & _ & Hcells); try done.
    by exists img.
Qed.

(** C4 on the 2 x 3 raster. *)
Lemma convert_reordered_constant_bands_witness :
  ∃ img,
    arr_from_geotiff (world_with "raw/nyc.tif" flat_raster) "raw/nyc.tif"
      3 1 2
    = ([RasterioOpen "raw/nyc.tif"; DatasetRead 3; DatasetRead 1;
        DatasetRead 2], Returned img)
    ∧ tolist3 (im_data img)
      = [ [[30; 10; 20]; [30; 10; 20]; [30; 10; 20]];
          [[30; 10; 20]; [30; 10; 20]; [30; 10; 20]] ]%Z.
Proof.
  exact (proj1 (convert_reordered_constant_bands
                  (world_with "raw/nyc.tif" flat_raster) "raw/nyc.tif"
                  flat_raster eq_refl flat_raster_constant)).
Defined.

(** C6: a path without the suffix [.tif] and the same path with it are
    converted alike, and it is the suffixed file that both open and
    read: the first event of either conversion is the opening of
    [p + ".tif"]; when no file is there both end with the opening's
    exception; when a raster is there both read its three bands and
    return their image. *)
Theorem convert_suffix_optional (w : World) (p : string)
    (r_channel g_channel b_channel : Z) :
  endswith p ".tif" = false →
  geotiff_path p = p +:+ ".tif"
  ∧ geotiff_path (p +:+ ".tif") = p +:+ ".tif"
  ∧ arr_from_geotiff w p r_channel g_channel b_channel
    = arr_from_geotiff w (p +:+ ".tif") r_channel g_channel b_channel
  ∧ (∃ t, fst (arr_from_geotiff w p r_channel g_channel b_channel)
          = RasterioOpen (p +:+ ".tif") :: t)
  ∧ (files w !! file_id w (p +:+ ".tif") = None →
     arr_from_geotiff w p r_channel g_channel b_channel
     = ([RasterioOpen (p +:+ ".tif")],
        Raised (RasterioIOError (p +:+ ".tif"))))
  ∧ (∀ src,
       files w !! file_id w (p +:+ ".tif") = Some (RasterFile src) →
       band_in_range src r_channel →
       band_in_range src g_channel →
       band_in_range src b_channel →
       arr_from_geotiff w p r_channel g_channel b_channel
       = ([RasterioOpen (p +:+ ".tif"); DatasetRead r_channel;
           DatasetRead g_channel; DatasetRead b_channel],
          Returned (rgb_image (float_cast w) src r_channel g_channel
                      b_channel))).
Proof.
  intros Hbare.
  assert (H1 : geotiff_path p = p +:+ ".tif") by by apply geotiff_path_bare.
  assert (H2 : geotiff_path (p +:+ ".tif") = p +:+ ".tif")
    by (apply geotiff_path_suffixed, endswith_app).
  split; [done|]. split; [done|]. split; [|split; [|split]].
  - unfold arr_from_geotiff. by rewrite H1, H2.
  - rewrite <- H1. apply arr_from_geotiff_opens.
  - intros Hnone. rewrite <- H1 in *. by apply arr_from_geotiff_missing.
  - intros src Hfile Hr Hg Hb. rewrite <- H1 in *.
    by apply arr_from_geotiff_returns.
Qed.

(** C6 at the path the command line derives, [raw/nyc]. *)
Lemma convert_suffix_optional_witness :
  geotiff_path "raw/nyc" = "raw/nyc.tif"
  ∧ geotiff_path "raw/nyc.tif" = "raw/nyc.tif"
  ∧ arr_from_geotiff (world_with "raw/nyc.tif" flat_raster) "raw/nyc" 1 2 3
    = arr_from_geotiff (world_with "raw/nyc.tif" flat_raster) "raw/nyc.tif"
        1 2 3
  ∧ arr_from_geotiff (world_with "raw/nyc.tif" flat_raster) "raw/nyc" 1 2 3
    = ([RasterioOpen "raw/nyc.tif"; DatasetRead 1; DatasetRead 2;
        DatasetRead 3],
       Returned (rgb_image (fun _ => 0%Z) flat_raster 1 2 3)).
Proof.
  pose proof (convert_suffix_optional (world_with "raw/nyc.tif" flat_raster)
                "raw/nyc" 1 2 3 eq_refl)
    as (Hp1 & Hp2 & Hsame & _ & _ & Hread).
  split; [exact Hp1|]. split; [exact Hp2|]. split; [exact Hsame|].
  apply (Hread flat_raster eq_refl); unfold band_in_range; simpl; lia.
Defined.



(** The cells of that image, computed: 300, -1, 70000 and 70001 are
    stored as 44, 255, 112 and 113. *)
Example convert_wide_raster_cells :
  tolist3 (im_data wide_image) = [ [[44; 255; 112]; [44; 255; 113]] ]%Z.
Proof. reflexivity. Qed.

(** C9: the path the conversion opens is the given path when that ends
    with [.tif], and the given path with [.tif] appended otherwise; so
    it always ends with [.tif]. The test is the exact suffix: for a path
    in [.tiff] or [.TIF] the conversion opens the path with [.tif]
    appended. *)
Theorem convert_opens_tif_suffix :
  (∀ w fname r_channel g_channel b_channel,
     ∃ t,
       fst (arr_from_geotiff w fname r_channel g_channel b_channel)
       = RasterioOpen (geotiff_path fname) :: t
       ∧ endswith (geotiff_path fname) ".tif" = true
       ∧ (endswith fname ".tif" = true → geotiff_path fname = fname)
       ∧ (endswith fname ".tif" = false →
          geotiff_path fname = fname +:+ ".tif"))
  ∧ (∀ w stem r_channel g_channel b_channel,
       ∃ t,
         fst (arr_from_geotiff w (stem +:+ ".tiff") r_channel g_channel
                b_channel)
         = RasterioOpen (stem +:+ ".tiff.tif") :: t)
  ∧ (∀ w stem r_channel g_channel b_channel,
       ∃ t,
         fst (arr_from_geotiff w (stem +:+ ".TIF") r_channel g_channel
                b_channel)
         = RasterioOpen (stem +:+ ".TIF.tif") :: t).
Proof.
  assert (Hvariant : ∀ stem ext,
            String.length ext = 5 ∨ String.length ext = 4 →
            endswith ext ".tif" = false →
            geotiff_path (stem +:+ ext) = stem +:+ (ext +:+ ".tif")).
  { intros stem ext Hlen Hext. rewrite geotiff_path_bare.
    - apply string_app_assoc.
    - rewrite endswith_app_tail by (simpl; lia). exact Hext. }
  split; [|split].
  - intros w fname r g b.
    destruct (arr_from_geotiff_opens w fname r g b) as [t Ht].
    exists t. split; [done|]. split; [apply geotiff_path_endswith|].
    split; [apply geotiff_path_suffixed | apply geotiff_path_bare].
  - intros w stem r g b.
    destruct (arr_from_geotiff_opens w (stem +:+ ".tiff") r g b) as [t Ht].
    exists t. rewrite Ht, (Hvariant stem ".tiff"); [done | by left | done].
  - intros w stem r g b.
    destruct (arr_from_geotiff_opens w (stem +:+ ".TIF") r g b) as [t Ht].
    exists t. rewrite Ht, (Hvariant stem ".TIF"); [done | by right | done].
Qed.

(** The paths opened for [raw/nyc.tiff] and [raw/nyc.TIF], computed. *)
Example convert_opens_variant_spellings :
  fst (arr_from_geotiff (world_with "raw/nyc.tif" flat_raster)
         "raw/nyc.tiff" 1 2 3)
  = [RasterioOpen "raw/nyc.tiff.tif"]
  ∧ fst (arr_from_geotiff (world_with "raw/nyc.tif" flat_raster)
           "raw/nyc.TIF" 1 2 3)
    = [RasterioOpen "raw/nyc.TIF.tif"].
Proof. split; reflexivity. Qed.

(** C9 at [raw/nyc], [raw/nyc.tiff] and [raw/nyc.TIF]. *)
Lemma convert_opens_tif_suffix_witness :
  (∃ t,
     fst (arr_from_geotiff (world_with "raw/nyc.tif" flat_raster) "raw/nyc"
            1 2 3)
     = RasterioOpen (geotiff_path "raw/nyc") :: t
     ∧ geotiff_path "raw/nyc" = "raw/nyc.tif")
  ∧ (∃ t,
       fst (arr_from_geotiff (world_with "raw/nyc.tif" flat_raster)
              "raw/nyc.tiff" 1 2 3)
       = RasterioOpen "raw/nyc.tiff.tif" :: t)
  ∧ (∃ t,
       fst (arr_from_geotiff (world_with "raw/nyc.tif" flat_raster)
              "raw/nyc.TIF" 1 2 3)
       = RasterioOpen "raw/nyc.TIF.tif" :: t).
Proof.
  destruct convert_opens_tif_suffix as (Hany & Htiff & HTIF).
  split; [|split].
  - destruct (Hany (world_with "raw/nyc.tif" flat_raster) "raw/nyc"
                1%Z 2%Z 3%Z)
      as (t & Ht & _ & _ & Hbare).
    exists t. split; [exact Ht | exact (Hbare eq_refl)].
  - exact (Htiff (world_with "raw/nyc.tif" flat_raster) "raw/nyc"
             1%Z 2%Z 3%Z).
  - exact (HTIF (world_with "raw/nyc.tif" flat_raster) "raw/nyc"
             1%Z 2%Z 3%Z).
Defined.

(** ** The image writer *)

Lemma trim_slash_snoc (d : string) :
  trim_slash_from_path (d +:+ "/") = trim_slash_from_path d.
Proof.
  induction d as [|c d IH]; [done|].
  change (String c d +:+ "/") with (String c (d +:+ "/")).
  simpl. by rewrite IH.
Qed.

Lemma endswith_cons (c : Ascii.ascii) (s suffix : string) :
  String.length suffix <= String.length s →
  endswith (String c s) suffix = endswith s suffix.
Proof. intros Hlen. by apply (endswith_app_tail (String c "") s suffix). Qed.

(** A directory that has no trailing separator is left as it is. *)
Lemma trim_slash_id (d : string) :
  endswith d "/" = false → trim_slash_from_path d = d.
Proof.
  induction d as [|c d IH]; [done|]. intros Hend. simpl.
  destruct d as [|c' d].
  - simpl. destruct (Ascii.eqb_spec c "/") as [->|Hc]; [|done].
    discriminate Hend.
  - rewrite endswith_cons in Hend by (simpl; lia).
    rewrite IH by done. reflexivity.
Qed.

Lemma elem_of_path_and_parents_dirs (w : World) (p q : PurePath) :
  q ∈ path_and_parents p →
  q ∈ dirs w ∪ list_to_set (C := gset PurePath) (path_and_parents p).
Proof. intros Hq. apply elem_of_union_r. by apply elem_of_list_to_set. Qed.

(** What [save_img] does when the directory can be made: the directory
    first, then the write, to the path formed of the trimmed directory,
    the name and the format. *)
Lemma save_img_after_mkdir (w : World) (img_arr : Image)
    (name format output_dir : string) :
  mkdir_raises w (Path (trim_slash_from_path output_dir)) = None →
  save_img w img_arr name format output_dir
  = let p := Path (trim_slash_from_path output_dir) in
    let fname := save_img_target name format output_dir in
    let w1 := with_dirs w (dirs w ∪ list_to_set (path_and_parents p)) in
    let t := [PathMkdir (fst p) (snd p); ImageSave fname] in
    match save_raises w fname with
    | Some (e, false) => (w1, (t, Raised e))
    | Some (e, true) =>
        (with_files w1 (<[file_id w fname := PartialFile]> (files w)),
         (t, Raised e))
    | None =>
        (with_files w1 (<[file_id w fname := ImageFile img_arr]> (files w)),
         (t, Returned tt))
    end.
Proof.
  intros Hmk. unfold save_img, path_mkdir, image_save, save_img_target.
  rewrite Hmk. simpl.
  by destruct (save_raises w _) as [[e [|]]|].
Qed.

(** What [save_img] does when the directory cannot be made: it stops
    there, with the parents that were made. *)
Lemma save_img_mkdir_raised (w : World) (img_arr : Image)
    (name format output_dir : string) (e : PyExn) (made : nat) :
  mkdir_raises w (Path (trim_slash_from_path output_dir)) = Some (e, made) →
  save_img w img_arr name format output_dir
  = let p := Path (trim_slash_from_path output_dir) in
    (with_dirs w (dirs w ∪ list_to_set (take made (path_parents p))),
     ([PathMkdir (fst p) (snd p)], Raised e)).
Proof.
  intros Hmk. unfold save_img, path_mkdir. by rewrite Hmk.
Qed.

(** C5: [save_img] with a directory and with the same directory followed
    by a separator are the same operation, writing to the same path; a
    directory without a trailing separator is used as it is, so that the
    path is [{output_dir}/{name}.{format}], and when nothing fails the
    image is stored there. *)
Theorem save_trailing_separator (w : World) (img_arr : Image)
    (name format output_dir : string) :
  save_img w img_arr name format (output_dir +:+ "/")
  = save_img w img_arr name format output_dir
  ∧ save_img_target name format (output_dir +:+ "/")
    = save_img_target name format output_dir
  ∧ (endswith output_dir "/" = false →
     save_img_target name format output_dir
     = output_dir +:+ "/" +:+ name +:+ "." +:+ format)
  ∧ (mkdir_raises w (Path (trim_slash_from_path output_dir)) = None →
     save_raises w (save_img_target name format output_dir) = None →
     snd (save_img w img_arr name format output_dir)
     = ([PathMkdir (fst (Path (trim_slash_from_path output_dir)))
                   (snd (Path (trim_slash_from_path output_dir)));
         ImageSave (save_img_target name format output_dir)], Returned tt)
     ∧ files (fst (save_img w img_arr name format output_dir))
         !! file_id w (save_img_target name format output_dir)
       = Some (ImageFile img_arr)).
Proof.
  split; [|split; [|split]].
  - unfold save_img. by rewrite trim_slash_snoc.
  - unfold save_img_target. by rewrite trim_slash_snoc.
  - intros Hend. unfold save_img_target. by rewrite trim_slash_id.
  - intros Hmk Hsave. rewrite save_img_after_mkdir by done. simpl.
    rewrite Hsave. simpl. split; [done|]. apply lookup_insert_eq.
Qed.

(** C5 at [out] and [out/]. *)
Lemma save_trailing_separator_witness :
  save_img empty_disk one_pixel "x" "png" "out/"
  = save_img empty_disk one_pixel "x" "png" "out"
  ∧ save_img_target "x" "png" "out/" = "out/x.png"
  ∧ save_img_target "x" "png" "out" = "out/x.png"
  ∧ snd (save_img empty_disk one_pixel "x" "png" "out")
    = ([PathMkdir "" ["out"]; ImageSave "out/x.png"], Returned tt)
  ∧ files (fst (save_img empty_disk one_pixel "x" "png" "out"))
      !! file_id empty_disk "out/x.png"
    = Some (ImageFile one_pixel).
Proof.
  pose proof (save_trailing_separator empty_disk one_pixel "x" "png" "out")
    as (Hsame & Htarget & Hpath & Hwrite).
  specialize (Hpath eq_refl).
  destruct (Hwrite eq_refl eq_refl) as [Htrace Himage].
  split; [exact Hsame|]. split; [exact Htarget|]. split; [exact Hpath|].
  split; [exact Htrace | exact Himage].
Defined.

(** C8: the file name is always the name followed by a dot and the
    format, whatever the name ends with. With the name [test.png], the
    format [png] and the default directory the write goes to
    [out/test.png.png], and the file [out/test.png], when it is another
    file, stays as it was. *)
Theorem save_appends_format_always :
  (∀ name format output_dir,
     endswith (save_img_target name format output_dir)
              (name +:+ "." +:+ format) = true)
  ∧ (∀ w img_arr,
       mkdir_raises w (Path "out") = None →
       save_raises w "out/test.png.png" = None →
       snd (save_img_default w img_arr "test.png")
       = ([PathMkdir "" ["out"]; ImageSave "out/test.png.png"], Returned tt)
       ∧ files (fst (save_img_default w img_arr "test.png"))
           !! file_id w "out/test.png.png" = Some (ImageFile img_arr)
       ∧ (file_id w "out/test.png" ≠ file_id w "out/test.png.png" →
          files (fst (save_img_default w img_arr "test.png"))
            !! file_id w "out/test.png"
          = files w !! file_id w "out/test.png")).
Proof.
  split.
  - intros name format output_dir. unfold save_img_target, save_fname.
    rewrite <- (string_app_assoc _ "/").
    apply endswith_app.
  - intros w img_arr Hmk Hsave. unfold save_img_default.
    rewrite save_img_after_mkdir by exact Hmk.
    change (save_img_target "test.png" "png" "out/") with "out/test.png.png".
    simpl. rewrite Hsave. simpl.
    split; [done|]. split.
    + apply lookup_insert_eq.
    + intros Hne. by apply lookup_insert_ne.
Qed.

(** C8 on an empty file system. *)
Lemma save_appends_format_always_witness :
  snd (save_img_default empty_disk one_pixel "test.png")
  = ([PathMkdir "" ["out"]; ImageSave "out/test.png.png"], Returned tt)
  ∧ files (fst (save_img_default empty_disk one_pixel "test.png"))
      !! file_id empty_disk "out/test.png.png" = Some (ImageFile one_pixel)
  ∧ files (fst (save_img_default empty_disk one_pixel "test.png"))
      !! file_id empty_disk "out/test.png"
    = files empty_disk !! file_id empty_disk "out/test.png".
Proof.
  destruct (proj2 save_appends_format_always empty_disk one_pixel
              eq_refl eq_refl) as (Htrace & Hfile & Hother).
  split; [exact Htrace|]. split; [exact Hfile|].
  apply Hother. discriminate.
Defined.

(** C10: the directory is made before the write is attempted. When the
    write fails, [save_img] ends with the write's exception and the
    directory and all its parents exist afterwards. *)
Theorem save_keeps_directories_on_failed_write (w : World) (img_arr : Image)
    (name format output_dir : string) (e : PyExn) (left : bool) :
  mkdir_raises w (Path (trim_slash_from_path output_dir)) = None →
  save_raises w (save_img_target name format output_dir) = Some (e, left) →
  ∃ w',
    save_img w img_arr name format output_dir
    = (w', ([PathMkdir (fst (Path (trim_slash_from_path output_dir)))
                       (snd (Path (trim_slash_from_path output_dir)));
             ImageSave (save_img_target name format output_dir)], Raised e))
    ∧ dirs w'
      = dirs w
        ∪ list_to_set
            (path_and_parents (Path (trim_slash_from_path output_dir)))
    ∧ ∀ p, p ∈ path_and_parents (Path (trim_slash_from_path output_dir)) →
           p ∈ dirs w'.
Proof.
  intros Hmk Hsave. rewrite save_img_after_mkdir by done. simpl.
  rewrite Hsave.
  destruct left; (eexists; split; [reflexivity|]; simpl; split; [done|]);
    intros p Hp; by apply elem_of_path_and_parents_dirs.
Qed.

(** C10 on a disk that is full: [nested/new/dir] and its parents are
    there after the failed write. *)
Lemma save_keeps_directories_on_failed_write_witness :
  ∃ w',
    save_img full_disk one_pixel "test" "png" "nested/new/dir"
    = (w', ([PathMkdir "" ["nested"; "new"; "dir"];
             ImageSave "nested/new/dir/test.png"],
            Raised disk_full))
    ∧ dirs w'
      = dirs full_disk
        ∪ list_to_set [ ("", ["nested"; "new"; "dir"]);
                        ("", ["nested"; "new"]);
                        ("", ["nested"]) ]
    ∧ ∀ p, p ∈ [ ("", ["nested"; "new"; "dir"]);
                 ("", ["nested"; "new"]);
                 ("", ["nested"]) ] →
           p ∈ dirs w'.
Proof.
  exact (save_keeps_directories_on_failed_write full_disk one_pixel "test"
           "png" "nested/new/dir" disk_full true eq_refl eq_refl).
Defined.

(** * Further properties *)

(** ** The export: a job that never ends, and exceptions *)

Section PollMore.
Variable env : Remote.

(** While every answer is "active" the loop goes on, whatever the fuel. *)
Lemma poll_stuck :
  (∀ k, task_active env k = Returned true) →
  ∀ fuel k, poll env fuel k = None.
Proof.
  intros Hact. induction fuel as [|fuel IH]; intros k; [done|].
  simpl. by rewrite Hact, IH.
Qed.

(** A status query that raises ends the loop with its exception. *)
Lemma poll_raises (n : nat) (e : PyExn) : ∀ fuel k,
  (∀ i, i < n → task_active env (k + i) = Returned true) →
  task_active env (k + n) = Raised e →
  n < fuel →
  poll env fuel k = Some (polling n ++ [TaskActive (Raised e)], Raised e).
Proof.
  induction n as [|n IH]; intros fuel k Hact Hend Hfuel.
  - destruct fuel as [|fuel]; [lia|]. simpl.
    rewrite Nat.add_0_r in Hend. by rewrite Hend.
  - destruct fuel as [|fuel]; [lia|]. simpl.
    specialize (Hact 0 ltac:(lia)) as H0. rewrite Nat.add_0_r in H0.
    rewrite H0, (IH fuel (S k)).
    + reflexivity.
    + intros i Hi. replace (S k + i) with (k + S i) by lia. apply Hact. lia.
    + replace (S k + n) with (k + S n) by lia. exact Hend.
    + lia.
Qed.

End PollMore.

(** X1: there is no timeout. On a service that accepts the submission
    and whose job answers "active" to every status query, the function
    does not return, however many rounds the loop is given. *)
Theorem extract_never_returns_while_active
    (env : Remote) (dataset_name : string) (bands : list string)
    (start_date end_date output_dir desc : string) (mpp : Z)
    (xmin ymin xmax ymax : float) :
  accepts_all env →
  (∀ k, task_active env k = Returned true) →
  ∀ fuel,
    extract_geotiff_from_gee env fuel dataset_name bands start_date end_date
      output_dir desc mpp xmin ymin xmax ymax
    = None.
Proof.
  intros Hok Hact fuel. unfold extract_geotiff_from_gee.
  rewrite submit_accepted by done. by rewrite poll_stuck.
Qed.

Lemma extract_never_returns_while_active_witness :
  extract_geotiff_from_gee stuck_remote 1000 "USDA/NAIP/DOQQ"
    ["R"; "G"; "B"] "2017-01-01" "2018-12-31" "UtiliGEE_Exports" "nyc" 30
    1 4 2 5
  = None.
Proof.
  apply (extract_never_returns_while_active stuck_remote).
  - intros c. reflexivity.
  - intros k. reflexivity.
Defined.

(** X2: a status query that raises ends the function with that
    exception, after the rounds that were answered "active"; the
    completion notice is not printed. *)
Theorem extract_status_query_raises
    (env : Remote) (dataset_name : string) (bands : list string)
    (start_date end_date output_dir desc : string) (mpp : Z)
    (xmin ymin xmax ymax : float) (n fuel : nat) (e : PyExn) :
  accepts_all env →
  (∀ i, i < n → task_active env i = Returned true) →
  task_active env n = Raised e →
  n < fuel →
  extract_geotiff_from_gee env fuel dataset_name bands start_date end_date
    output_dir desc mpp xmin ymin xmax ymax
  = Some (submit_events env dataset_name bands start_date end_date
            output_dir desc mpp xmin ymin xmax ymax
          ++ polling n ++ [TaskActive (Raised e)],
          Raised e).
Proof.
  intros Hok Hact Hend Hfuel. unfold extract_geotiff_from_gee.
  rewrite submit_accepted by done.
  by rewrite (poll_raises env n e fuel 0).
Qed.

Lemma extract_status_query_raises_witness :
  extract_geotiff_from_gee flaky_remote 2 "USDA/NAIP/DOQQ" ["R"; "G"; "B"]
    "2017-01-01" "2018-12-31" "UtiliGEE_Exports" "nyc" 30 1 4 2 5
  = Some (submit_events flaky_remote "USDA/NAIP/DOQQ" ["R"; "G"; "B"]
            "2017-01-01" "2018-12-31" "UtiliGEE_Exports" "nyc" 30 1 4 2 5
          ++ [TaskActive (Returned true); Sleep 1;
              TaskActive (Raised connection_lost)],
          Raised connection_lost).
Proof.
  apply (extract_status_query_raises flaky_remote "USDA/NAIP/DOQQ"
           ["R"; "G"; "B"] "2017-01-01" "2018-12-31" "UtiliGEE_Exports"
           "nyc" 30 1 4 2 5 1 2 connection_lost).
  - intros c. reflexivity.
  - intros [|i] Hi; [reflexivity | lia].
  - reflexivity.
  - lia.
Defined.

(** X3: the first library call that raises ends the function there. The
    events are the calls up to and including that one; nothing after it
    is called, the task is never polled, and no fuel is needed. *)
Theorem extract_stops_at_first_raise
    (env : Remote) (dataset_name : string) (bands : list string)
    (start_date end_date output_dir desc : string) (mpp : Z)
    (xmin ymin xmax ymax : float) (n : nat) (c : EECall) (e : PyExn) :
  submit_events env dataset_name bands start_date end_date output_dir desc
    mpp xmin ymin xmax ymax !! n = Some (Call c) →
  (∀ m c', m < n →
     submit_events env dataset_name bands start_date end_date output_dir
       desc mpp xmin ymin xmax ymax !! m = Some (Call c') →
     ee_raises env c' = None) →
  ee_raises env c = Some e →
  ∀ fuel,
    extract_geotiff_from_gee env fuel dataset_name bands start_date end_date
      output_dir desc mpp xmin ymin xmax ymax
    = Some (take (S n)
              (submit_events env dataset_name bands start_date end_date
                 output_dir desc mpp xmin ymin xmax ymax),
            Raised e).
Proof.
  intros Hn Hprev He fuel.
  destruct n as [|[|[|[|[|[|[|[|[|[|n]]]]]]]]]]; simpl in Hn;
    try discriminate Hn; injection Hn as <-;
    unfold extract_geotiff_from_gee, submit, call, emit, mbind, run_bind;
    repeat match goal with
      | |- context [ee_raises env ?c'] =>
          first [ rewrite He
                | rewrite (Hprev 0 c' ltac:(lia) eq_refl)
                | rewrite (Hprev 1 c' ltac:(lia) eq_refl)
                | rewrite (Hprev 2 c' ltac:(lia) eq_refl)
                | rewrite (Hprev 3 c' ltac:(lia) eq_refl)
                | rewrite (Hprev 4 c' ltac:(lia) eq_refl)
                | rewrite (Hprev 5 c' ltac:(lia) eq_refl)
                | rewrite (Hprev 6 c' ltac:(lia) eq_refl)
                | rewrite (Hprev 7 c' ltac:(lia) eq_refl) ]; simpl
      end;
    reflexivity.
Qed.

Lemma extract_stops_at_first_raise_witness :
  extract_geotiff_from_gee unauthorized_remote 0 "USDA/NAIP/DOQQ"
    ["R"; "G"; "B"] "2017-01-01" "2018-12-31" "UtiliGEE_Exports" "nyc" 30
    1 4 2 5
  = Some ([Call ee_Initialize], Raised not_signed_in).
Proof.
  apply (extract_stops_at_first_raise unauthorized_remote "USDA/NAIP/DOQQ"
           ["R"; "G"; "B"] "2017-01-01" "2018-12-31" "UtiliGEE_Exports"
           "nyc" 30 1 4 2 5 0 ee_Initialize not_signed_in).
  - reflexivity.
  - intros m c' Hm. lia.
  - reflexivity.
Defined.

(** ** The conversion: missing files, missing bands, shapes *)

(** X4: a path at which there is no file. The conversion opens the
    normalized path and ends with the opening's exception; no band is
    read. *)
Theorem convert_missing_file (w : World) (fname : string)
    (r_channel g_channel b_channel : Z) :
  files w !! file_id w (geotiff_path fname) = None →
  arr_from_geotiff w fname r_channel g_channel b_channel
  = ([RasterioOpen (geotiff_path fname)],
     Raised (RasterioIOError (geotiff_path fname))).
Proof. apply arr_from_geotiff_missing. Qed.

Lemma convert_missing_file_witness :
  arr_from_geotiff (world_with "raw/nyc.tif" flat_raster) "raw/paris" 1 2 3
  = ([RasterioOpen "raw/paris.tif"],
     Raised (RasterioIOError "raw/paris.tif")).
Proof.
  apply (convert_missing_file (world_with "raw/nyc.tif" flat_raster)
           "raw/paris" 1 2 3).
  reflexivity.
Defined.

(** X5: a band number the raster does not have (0 and the negative
    numbers among them: bands count from 1). The bands are read in the
    order red, green, blue, and the first number out of range ends the
    conversion with [IndexError]; the later bands are not read. *)
Theorem convert_band_out_of_range (w : World) (fname : string)
    (src : Raster) (r_channel g_channel b_channel : Z) :
  files w !! file_id w (geotiff_path fname) = Some (RasterFile src) →
  (¬ band_in_range src r_channel →
   arr_from_geotiff w fname r_channel g_channel b_channel
   = ([RasterioOpen (geotiff_path fname); DatasetRead r_channel],
      Raised (IndexError r_channel src)))
  ∧ (band_in_range src r_channel → ¬ band_in_range src g_channel →
     arr_from_geotiff w fname r_channel g_channel b_channel
     = ([RasterioOpen (geotiff_path fname); DatasetRead r_channel;
         DatasetRead g_channel],
        Raised (IndexError g_channel src)))
  ∧ (band_in_range src r_channel → band_in_range src g_channel →
     ¬ band_in_range src b_channel →
     arr_from_geotiff w fname r_channel g_channel b_channel
     = ([RasterioOpen (geotiff_path fname); DatasetRead r_channel;
         DatasetRead g_channel; DatasetRead b_channel],
        Raised (IndexError b_channel src))).
Proof.
  intros Hfile. apply arr_from_geotiff_band_error.
  by apply rasterio_open_raster.
Qed.

Lemma convert_band_out_of_range_witness :
  arr_from_geotiff (world_with "raw/nyc.tif" flat_raster) "raw/nyc" 0 2 3
  = ([RasterioOpen "raw/nyc.tif"; DatasetRead 0],
     Raised {| exn_class := "IndexError";
               exn_msg := "band index 0 out of range (not in (1, 2, 3))" |})
  ∧ arr_from_geotiff (world_with "raw/nyc.tif" flat_raster) "raw/nyc" 1 4 3
    = ([RasterioOpen "raw/nyc.tif"; DatasetRead 1; DatasetRead 4],
       Raised {| exn_class := "IndexError";
                 exn_msg := "band index 4 out of range (not in (1, 2, 3))" |})
  ∧ arr_from_geotiff (world_with "raw/nyc.tif" flat_raster) "raw/nyc"
      1 2 (-1)
    = ([RasterioOpen "raw/nyc.tif"; DatasetRead 1; DatasetRead 2;
        DatasetRead (-1)],
       Raised {| exn_class := "IndexError";
                 exn_msg := "band index -1 out of range (not in (1, 2, 3))" |}).
Proof.
  split; [|split].
  - apply (proj1 (convert_band_out_of_range
                    (world_with "raw/nyc.tif" flat_raster) "raw/nyc"
                    flat_raster 0 2 3 eq_refl)).
    unfold band_in_range. simpl. lia.
  - apply (proj1 (proj2 (convert_band_out_of_range
                           (world_with "raw/nyc.tif" flat_raster) "raw/nyc"
                           flat_raster 1 4 3 eq_refl))).
    + unfold band_in_range. simpl. lia.
    + unfold band_in_range. simpl. lia.
  - apply (proj2 (proj2 (convert_band_out_of_range
                           (world_with "raw/nyc.tif" flat_raster) "raw/nyc"
                           flat_raster 1 2 (-1) eq_refl))).
    + unfold band_in_range. simpl. lia.
    + unfold band_in_range. simpl. lia.
    + unfold band_in_range. simpl. lia.
Defined.

(** X6: the conversion returns an image exactly when the opening of the
    normalized path returns a raster and the three band numbers are
    among its bands. *)
Theorem convert_returns_iff (w : World) (fname : string)
    (r_channel g_channel b_channel : Z) :
  (∃ t img,
     arr_from_geotiff w fname r_channel g_channel b_channel
     = (t, Returned img))
  ↔ (∃ src,
       rasterio_open w (geotiff_path fname)
       = ([RasterioOpen (geotiff_path fname)], Returned src)
       ∧ band_in_range src r_channel
       ∧ band_in_range src g_channel
       ∧ band_in_range src b_channel).
Proof.
  split.
  - intros (t & img & Hrun).
    destruct (arr_from_geotiff_returned_inv _ _ _ _ _ _ _ Hrun)
      as (src & Hopen & Hr & Hg & Hb & _).
    by exists src.
  - intros (src & Hopen & Hr & Hg & Hb).
    rewrite (arr_from_geotiff_opened w fname src) by done. by eexists _, _.
Qed.

Lemma convert_returns_iff_witness :
  ∃ t img,
    arr_from_geotiff (world_with "raw/nyc.tif" flat_raster) "raw/nyc" 2 2 1
    = (t, Returned img).
Proof.
  apply (proj2 (convert_returns_iff (world_with "raw/nyc.tif" flat_raster)
                  "raw/nyc" 2 2 1)).
  exists flat_raster. split; [reflexivity|].
  unfold band_in_range. simpl. lia.
Defined.

(** X7: whatever raster is converted, an empty one too, the image is an
    RGB image of the raster's width and height: as many rows as the
    raster is high, each as long as it is wide, three cells a pixel. *)
Theorem convert_image_dimensions (w : World) (fname : string)
    (r_channel g_channel b_channel : Z) (t : list Event) (img : Image) :
  arr_from_geotiff w fname r_channel g_channel b_channel
  = (t, Returned img) →
  ∃ src,
    rasterio_open w (geotiff_path fname)
    = ([RasterioOpen (geotiff_path fname)], Returned src)
    ∧ im_mode img = "RGB"
    ∧ im_size img = (width src, height src)
    ∧ length (tolist3 (im_data img)) = height src
    ∧ Forall (λ row, length row = width src
                     ∧ Forall (λ px, length px = 3) row)
             (tolist3 (im_data img)).
Proof.
  intros Hrun.
  destruct (arr_from_geotiff_returned_inv _ _ _ _ _ _ _ Hrun)
    as (src & Hopen & Hr & Hg & Hb & _ & ->).
  exists src.
  split; [done|]. split; [done|]. split; [done|].
  unfold tolist3. simpl. split.
  - by rewrite length_map, length_seq.
  - apply Forall_map, Forall_forall. intros i _. simpl. split.
    + by rewrite length_map, length_seq.
    + apply Forall_map, Forall_forall. by intros j _.
Qed.

Lemma convert_image_dimensions_witness :
  ∃ src,
    rasterio_open (world_with "wide.tif" wide_raster) (geotiff_path "wide")
    = ([RasterioOpen (geotiff_path "wide")], Returned src)
    ∧ im_mode wide_image = "RGB"
    ∧ im_size wide_image = (width src, height src)
    ∧ length (tolist3 (im_data wide_image)) = height src
    ∧ Forall (λ row, length row = width src
                     ∧ Forall (λ px, length px = 3) row)
             (tolist3 (im_data wide_image)).
Proof.
  exact (convert_image_dimensions (world_with "wide.tif" wide_raster) "wide"
           1 2 3 _ wide_image eq_refl).
Defined.

(** X8: a cell of the image made of a band of an integer sample type
    equals the sample it was taken from exactly when the sample is in
    0..255; every sample outside that range is stored changed. A
    floating sample whose value without its fraction is in 0..255 is
    stored as that value. *)
Theorem convert_keeps_exactly_8bit_samples (w : World) (fname : string)
    (src : Raster) (r_channel g_channel b_channel : Z)
    (t : list Event) (img : Image) :
  files w !! file_id w (geotiff_path fname) = Some (RasterFile src) →
  arr_from_geotiff w fname r_channel g_channel b_channel
  = (t, Returned img) →
  ∀ i j,
    (∀ cells, band src r_channel = IntBand cells →
       (at3 (im_data img) i j 0 = cells i j ↔ (0 <= cells i j < 256)%Z))
    ∧ (∀ cells, band src g_channel = IntBand cells →
         (at3 (im_data img) i j 1 = cells i j ↔ (0 <= cells i j < 256)%Z))
    ∧ (∀ cells, band src b_channel = IntBand cells →
         (at3 (im_data img) i j 2 = cells i j ↔ (0 <= cells i j < 256)%Z))
    ∧ (∀ cells z, band src r_channel = FloatBand cells →
         trunc_float (cells i j) = Some z → (0 <= z < 256)%Z →
         at3 (im_data img) i j 0 = z)
    ∧ (∀ cells z, band src g_channel = FloatBand cells →
         trunc_float (cells i j) = Some z → (0 <= z < 256)%Z →
         at3 (im_data img) i j 1 = z)
    ∧ (∀ cells z, band src b_channel = FloatBand cells →
         trunc_float (cells i j) = Some z → (0 <= z < 256)%Z →
         at3 (im_data img) i j 2 = z).
Proof.
  intros Hfile Hrun.
  destruct (arr_from_geotiff_returned_inv _ _ _ _ _ _ _ Hrun)
    as (src' & Hopen & Hr & Hg & Hb & _ & ->).
  rewrite (rasterio_open_raster w _ src Hfile) in Hopen.
  injection Hopen as <-.
  intros i j. simpl. unfold cell_uint8. simpl.
  assert (Hmod : ∀ z : Z, (astype_uint8 z = z ↔ 0 <= z < 256)%Z).
  { intros z. unfold astype_uint8. split.
    - intros <-. apply Z.mod_pos_bound. lia.
    - intros Hz. by apply Z.mod_small. }
  assert (Hfloat : ∀ x z, trunc_float x = Some z → (0 <= z < 256)%Z →
            float_astype_uint8 (float_cast w) x = z).
  { intros x z Hx Hz. unfold float_astype_uint8. rewrite Hx.
    destruct (Z.leb_spec 0 z); [|lia].
    destruct (Z.ltb_spec z 256); [done | lia]. }
  split; [by intros cells ->|]. split; [by intros cells ->|].
  split; [by intros cells ->|].
  split; [intros cells z ->; apply Hfloat|].
  split; [intros cells z ->; apply Hfloat|].
  intros cells z ->. apply Hfloat.
Qed.

Lemma convert_keeps_exactly_8bit_samples_witness :
  (∀ cells, band wide_raster 1 = IntBand cells →
     (at3 (im_data wide_image) 0 1 0 = cells 0%nat 1%nat
      ↔ (0 <= cells 0%nat 1%nat < 256)%Z))
  ∧ (∀ cells, band wide_raster 2 = IntBand cells →
       (at3 (im_data wide_image) 0 1 1 = cells 0%nat 1%nat
        ↔ (0 <= cells 0%nat 1%nat < 256)%Z))
  ∧ (∀ cells, band wide_raster 3 = IntBand cells →
       (at3 (im_data wide_image) 0 1 2 = cells 0%nat 1%nat
        ↔ (0 <= cells 0%nat 1%nat < 256)%Z))
  ∧ (∀ cells z, band wide_raster 1 = FloatBand cells →
       trunc_float (cells 0%nat 1%nat) = Some z → (0 <= z < 256)%Z →
       at3 (im_data wide_image) 0 1 0 = z)
  ∧ (∀ cells z, band wide_raster 2 = FloatBand cells →
       trunc_float (cells 0%nat 1%nat) = Some z → (0 <= z < 256)%Z →
       at3 (im_data wide_image) 0 1 1 = z)
  ∧ (∀ cells z, band wide_raster 3 = FloatBand cells →
       trunc_float (cells 0%nat 1%nat) = Some z → (0 <= z < 256)%Z →
       at3 (im_data wide_image) 0 1 2 = z).
Proof.
  exact (convert_keeps_exactly_8bit_samples
           (world_with "wide.tif" wide_raster) "wide" wide_raster
           1 2 3 _ wide_image eq_refl eq_refl 0 1).
Defined.

(** X9: exchanging [r_channel] and [b_channel] exchanges channels 0 and
    2 of every pixel and leaves channel 1 and the size as they are. *)
Theorem convert_swap_red_blue (w : World) (fname : string)
    (r_channel g_channel b_channel : Z) (t : list Event) (img : Image) :
  arr_from_geotiff w fname r_channel g_channel b_channel
  = (t, Returned img) →
  ∃ t' img',
    arr_from_geotiff w fname b_channel g_channel r_channel
    = (t', Returned img')
    ∧ im_size img' = im_size img
    ∧ ∀ i j,
        at3 (im_data img') i j 0 = at3 (im_data img) i j 2
        ∧ at3 (im_data img') i j 1 = at3 (im_data img) i j 1
        ∧ at3 (im_data img') i j 2 = at3 (im_data img) i j 0.
Proof.
  intros Hrun.
  destruct (arr_from_geotiff_returned_inv _ _ _ _ _ _ _ Hrun)
    as (src & Hopen & Hr & Hg & Hb & _ & ->).
  rewrite (arr_from_geotiff_opened w fname src) by done.
  eexists _, _. split; [reflexivity|]. split; [reflexivity|].
  intros i j. by simpl.
Qed.

Lemma convert_swap_red_blue_witness :
  ∃ t' img',
    arr_from_geotiff (world_with "wide.tif" wide_raster) "wide" 3 2 1
    = (t', Returned img')
    ∧ im_size img' = im_size wide_image
    ∧ ∀ i j,
        at3 (im_data img') i j 0 = at3 (im_data wide_image) i j 2
        ∧ at3 (im_data img') i j 1 = at3 (im_data wide_image) i j 1
        ∧ at3 (im_data img') i j 2 = at3 (im_data wide_image) i j 0.
Proof.
  exact (convert_swap_red_blue (world_with "wide.tif" wide_raster) "wide"
           1 2 3 _ wide_image eq_refl).
Defined.

(** X10: normalizing a path twice is normalizing it once, for every
    path, suffixed or not; converting the normalized path is converting
    the path. *)
Theorem convert_path_normalized_once (w : World) (fname : string)
    (r_channel g_channel b_channel : Z) :
  geotiff_path (geotiff_path fname) = geotiff_path fname
  ∧ arr_from_geotiff w (geotiff_path fname) r_channel g_channel b_channel
    = arr_from_geotiff w fname r_channel g_channel b_channel.
Proof.
  assert (Hidem : geotiff_path (geotiff_path fname) = geotiff_path fname)
    by apply geotiff_path_suffixed, geotiff_path_endswith.
  split; [done|]. unfold arr_from_geotiff. by rewrite Hidem.
Qed.

(** ** The image writer: failures and what is left alone *)

(** A path is none of its own parents. *)
Lemma not_elem_of_path_parents (p : PurePath) : p ∉ path_parents p.
Proof.
  unfold path_parents. intros Hin.
  apply list_elem_of_fmap in Hin as (n & Hp & Hn).
  apply elem_of_seq in Hn.
  destruct p as [anchor parts]. simpl in *.
  injection Hp as Hparts.
  assert (Hlen : length parts = length (take n parts)) by by rewrite <- Hparts.
  rewrite length_take in Hlen. lia.
Qed.

(** X11: when making the output directory raises, [save_img] ends with
    that exception and the write is not attempted: no file is changed.
    No directory is removed, and the only directories that can be new
    are parents of the output directory, never the directory itself. *)
Theorem save_mkdir_fails (w : World) (img_arr : Image)
    (name format output_dir : string) (e : PyExn) (made : nat) :
  mkdir_raises w (Path (trim_slash_from_path output_dir)) = Some (e, made) →
  ∃ w',
    save_img w img_arr name format output_dir
    = (w', ([PathMkdir (fst (Path (trim_slash_from_path output_dir)))
                       (snd (Path (trim_slash_from_path output_dir)))],
            Raised e))
    ∧ files w' = files w
    ∧ dirs w ⊆ dirs w'
    ∧ (∀ q, q ∈ dirs w' →
         q ∈ dirs w
         ∨ q ∈ path_parents (Path (trim_slash_from_path output_dir)))
    ∧ (Path (trim_slash_from_path output_dir) ∈ dirs w' →
       Path (trim_slash_from_path output_dir) ∈ dirs w).
Proof.
  intros Hmk.
  rewrite (save_img_mkdir_raised w img_arr name format output_dir e made)
    by done.
  eexists. split; [reflexivity|]. simpl. split; [done|].
  split; [apply union_subseteq_l|].
  assert (Hnew : ∀ q,
            q ∈ dirs w
                ∪ list_to_set (C := gset PurePath)
                    (take made
                       (path_parents
                          (Path (trim_slash_from_path output_dir)))) →
            q ∈ dirs w
            ∨ q ∈ path_parents (Path (trim_slash_from_path output_dir))).
  { intros q [Hq|Hq]%elem_of_union; [by left|]. right.
    apply elem_of_list_to_set, elem_of_take in Hq as (k & Hk & _).
    apply list_elem_of_lookup. by exists k. }
  split; [exact Hnew|].
  intros Hp. destruct (Hnew _ Hp) as [Hold|Hpar]; [done|].
  by apply not_elem_of_path_parents in Hpar.
Qed.

Lemma save_mkdir_fails_witness :
  ∃ w',
    save_img long_name_disk one_pixel "test" "png" "nested/new/dir"
    = (w', ([PathMkdir "" ["nested"; "new"; "dir"]], Raised name_too_long))
    ∧ files w' = files long_name_disk
    ∧ dirs long_name_disk ⊆ dirs w'
    ∧ (∀ q, q ∈ dirs w' →
         q ∈ dirs long_name_disk
         ∨ q ∈ [("", ["nested"]); ("", ["nested"; "new"])])
    ∧ (("", ["nested"; "new"; "dir"]) ∈ dirs w' →
       ("", ["nested"; "new"; "dir"]) ∈ dirs long_name_disk).
Proof.
  exact (save_mkdir_fails long_name_disk one_pixel "test" "png"
           "nested/new/dir" name_too_long 2 eq_refl).
Defined.

(** The directories left by the failed call above, computed: the two
    parents that were made. *)
Example mkdir_failure_leaves_parents :
  ("", ["nested"]) ∈ dirs (fst (save_img long_name_disk one_pixel "test"
                                  "png" "nested/new/dir"))
  ∧ ("", ["nested"; "new"]) ∈ dirs (fst (save_img long_name_disk one_pixel
                                           "test" "png" "nested/new/dir")).
Proof.
  rewrite (save_img_mkdir_raised long_name_disk one_pixel "test" "png"
             "nested/new/dir" name_too_long 2 eq_refl).
  cbv zeta. cbn [fst]. unfold with_dirs. cbn [dirs].
  split; apply elem_of_union_r, elem_of_list_to_set.
  - apply list_elem_of_here.
  - apply list_elem_of_further, list_elem_of_here.
Qed.

(** Whatever happens, [save_img] removes no directory and leaves every
    file other than the one its target path names as it is. *)
Lemma save_img_frame (w : World) (img_arr : Image)
    (name format output_dir : string) :
  file_id (fst (save_img w img_arr name format output_dir)) = file_id w
  ∧ open_written (fst (save_img w img_arr name format output_dir))
    = open_written w
  ∧ dirs w ⊆ dirs (fst (save_img w img_arr name format output_dir))
  ∧ ∀ id, id ≠ file_id w (save_img_target name format output_dir) →
      files (fst (save_img w img_arr name format output_dir)) !! id
      = files w !! id.
Proof.
  destruct (mkdir_raises w (Path (trim_slash_from_path output_dir)))
    as [[e made]|] eqn:Hmk.
  - rewrite (save_img_mkdir_raised w img_arr name format output_dir e made)
      by done.
    simpl. split; [done|]. split; [done|].
    split; [apply union_subseteq_l | done].
  - rewrite save_img_after_mkdir by done. simpl.
    destruct (save_raises w (save_img_target name format output_dir))
      as [[e [|]]|]; simpl;
      (split; [done|]); (split; [done|]);
      (split; [apply union_subseteq_l|]); try done;
      intros id Hne; by apply lookup_insert_ne.
Qed.

(** X12: whatever its outcome, [save_img] removes no directory and
    leaves every file other than the one its target path names as it
    is: a path that names another file opens afterwards as it did
    before. *)
Theorem save_frame (w : World) (img_arr : Image)
    (name format output_dir : string) :
  dirs w ⊆ dirs (fst (save_img w img_arr name format output_dir))
  ∧ (∀ id, id ≠ file_id w (save_img_target name format output_dir) →
       files (fst (save_img w img_arr name format output_dir)) !! id
       = files w !! id)
  ∧ (∀ fname,
       file_id w fname
       ≠ file_id w (save_img_target name format output_dir) →
       rasterio_open (fst (save_img w img_arr name format output_dir)) fname
       = rasterio_open w fname).
Proof.
  destruct (save_img_frame w img_arr name format output_dir)
    as (Hid & Hopen & Hdirs & Hfiles).
  split; [done|]. split; [done|].
  intros fname Hne. unfold rasterio_open.
  by rewrite Hid, Hopen, (Hfiles _ Hne).
Qed.

Lemma save_frame_witness :
  rasterio_open
    (fst (save_img (world_with "raw/nyc.tif" flat_raster) one_pixel
            "nyc" "png" "out/"))
    "raw/nyc.tif"
  = rasterio_open (world_with "raw/nyc.tif" flat_raster) "raw/nyc.tif".
Proof.
  apply (proj2 (proj2 (save_frame (world_with "raw/nyc.tif" flat_raster)
                         one_pixel "nyc" "png" "out/"))).
  discriminate.
Defined.

(** The write replaces what the target path names, a raster too, under
    whatever spelling: after an image is saved as [./raw/nyc.tif], the
    raster [raw/nyc.tif] is that image. *)
Example save_overwrites_raster :
  files (fst (save_img (world_with "raw/nyc.tif" flat_raster) one_pixel
                "nyc" "tif" "./raw/"))
    !! file_id (world_with "raw/nyc.tif" flat_raster) "raw/nyc.tif"
  = Some (ImageFile one_pixel).
Proof. reflexivity. Qed.

(** X13: saving twice under the same name, format and directory is
    saving the second image alone: the same file system and the same
    outcome. A directory that is already there is no error, and the
    second write replaces the first. *)
Theorem save_twice (w : World) (img1 img2 : Image)
    (name format output_dir : string) :
  save_img (fst (save_img w img1 name format output_dir)) img2 name format
    output_dir
  = save_img w img2 name format output_dir.
Proof.
  destruct (mkdir_raises w (Path (trim_slash_from_path output_dir)))
    as [[e made]|] eqn:Hmk.
  - rewrite (save_img_mkdir_raised w img1 name format output_dir e made)
      by done.
    rewrite (save_img_mkdir_raised w img2 name format output_dir e made)
      by done.
    simpl.
    rewrite (save_img_mkdir_raised _ img2 name format output_dir e made)
      by done.
    simpl. unfold with_dirs. simpl.
    by rewrite <- (assoc_L (∪)), (idemp_L (∪)).
  - rewrite (save_img_after_mkdir w img1) by done.
    rewrite (save_img_after_mkdir w img2) by done. simpl.
    destruct (save_raises w (save_img_target name format output_dir))
      as [[e [|]]|] eqn:Hsave; simpl.
    + rewrite save_img_after_mkdir by done. simpl. rewrite Hsave.
      unfold with_files, with_dirs. simpl.
      rewrite insert_insert_eq.
      by rewrite <- (assoc_L (∪)), (idemp_L (∪)).
    + rewrite save_img_after_mkdir by done. simpl. rewrite Hsave.
      unfold with_dirs. simpl.
      by rewrite <- (assoc_L (∪)), (idemp_L (∪)).
    + rewrite save_img_after_mkdir by done. simpl. rewrite Hsave.
      unfold with_files, with_dirs. simpl.
      rewrite insert_insert_eq.
      by rewrite <- (assoc_L (∪)), (idemp_L (∪)).
Qed.

(** ** The command line *)

(** The local raster path already carries the suffix, whatever the
    description is, so the conversion opens it as it is. *)
Lemma geotiff_local_path_normalized (desc : string) :
  geotiff_path (geotiff_local_path desc) = geotiff_local_path desc.
Proof.
  apply geotiff_path_suffixed. unfold geotiff_local_path.
  rewrite <- (string_app_assoc "/" desc ".tif").
  rewrite <- (string_app_assoc "raw" ("/" +:+ desc) ".tif").
  apply endswith_app.
Qed.

(** X14: a region that is not of four values ends [main] with
    [ValueError] before anything is called. *)
Theorem main_region_unpack (env : Remote) (fuel : nat) (w : World)
    (args : Namespace) :
  length (ns_region args) ≠ 4 →
  main env fuel w args
  = Some (w, ([], Raised (unpack_error (length (ns_region args))))).
Proof.
  intros Hlen. unfold main.
  destruct (ns_region args) as [|a [|b [|c [|d [|e rest]]]]]; try done.
Qed.

Lemma main_region_unpack_witness :
  main quiet_remote 1 empty_disk
    {| ns_data := "USDA/NAIP/DOQQ"; ns_region := [1; 2; 3]%float;
       ns_start := "2017-01-01"; ns_end := "2018-12-31";
       ns_bands := ["R"; "G"; "B"]; ns_output_dir := "UtiliGEE_Exports";
       ns_desc := "nyc"; ns_mpp := 30 |}
  = Some (empty_disk,
          ([], Raised {| exn_class := "ValueError";
                         exn_msg := "not enough values to unpack (expected 4, got 3)" |})).
Proof.
  apply (main_region_unpack quiet_remote 1 empty_disk
           {| ns_data := "USDA/NAIP/DOQQ"; ns_region := [1; 2; 3]%float;
              ns_start := "2017-01-01"; ns_end := "2018-12-31";
              ns_bands := ["R"; "G"; "B"];
              ns_output_dir := "UtiliGEE_Exports";
              ns_desc := "nyc"; ns_mpp := 30 |}).
  simpl. lia.
Defined.

(** X15: nothing brings the exported raster to the local disk. When the
    export returns and there is no file at [raw/{desc}.tif], [main]
    ends with the opening's exception after the export; no image is
    written and the file system is as it was. *)
Theorem main_missing_local_raster (env : Remote) (fuel : nat) (w : World)
    (args : Namespace) (xmin ymin xmax ymax : float) (t : list Event) :
  ns_region args = [xmin; ymin; xmax; ymax] →
  extract_geotiff_from_gee env fuel (ns_data args) (ns_bands args)
    (ns_start args) (ns_end args) (ns_output_dir args) (ns_desc args)
    (ns_mpp args) xmin ymin xmax ymax
  = Some (t, Returned tt) →
  files w !! file_id w (geotiff_local_path (ns_desc args)) = None →
  main env fuel w args
  = Some (w, (t ++ [RasterioOpen (geotiff_local_path (ns_desc args))],
              Raised (RasterioIOError (geotiff_local_path (ns_desc args))))).
Proof.
  intros Hregion Hexport Hnone. unfold main. rewrite Hregion, Hexport.
  unfold arr_from_geotiff_default.
  rewrite arr_from_geotiff_missing
    by by rewrite geotiff_local_path_normalized.
  by rewrite geotiff_local_path_normalized.
Qed.

Lemma main_missing_local_raster_witness :
  ∃ t,
    extract_geotiff_from_gee quiet_remote 1 "USDA/NAIP/DOQQ" ["R"; "G"; "B"]
      "2017-01-01" "2018-12-31" "UtiliGEE_Exports" "nyc" 30
      default_xmin default_ymin default_xmax default_ymax
    = Some (t, Returned tt)
    ∧ main quiet_remote 1 empty_disk (default_args "nyc")
      = Some (empty_disk,
              (t ++ [RasterioOpen "raw/nyc.tif"],
               Raised (RasterioIOError "raw/nyc.tif"))).
Proof.
  eexists. split; [reflexivity|].
  exact (main_missing_local_raster quiet_remote 1 empty_disk
           (default_args "nyc") default_xmin default_ymin default_xmax
           default_ymax _ eq_refl eq_refl eq_refl).
Defined.

(** X16: the whole pipeline. When the export returns, [raw/{desc}.tif]
    holds a raster of at least three bands and neither the directory nor
    the write fails, [main] returns: after the export it opens that
    file, reads bands 1, 2, 3, makes [out] and writes
    [out/{desc}.png], an RGB image of the raster's size. *)
Theorem main_pipeline (env : Remote) (fuel : nat) (w : World)
    (args : Namespace) (xmin ymin xmax ymax : float) (t : list Event)
    (src : Raster) :
  ns_region args = [xmin; ymin; xmax; ymax] →
  extract_geotiff_from_gee env fuel (ns_data args) (ns_bands args)
    (ns_start args) (ns_end args) (ns_output_dir args) (ns_desc args)
    (ns_mpp args) xmin ymin xmax ymax
  = Some (t, Returned tt) →
  files w !! file_id w (geotiff_local_path (ns_desc args))
  = Some (RasterFile src) →
  (3 ≤ count src)%nat →
  mkdir_raises w (Path "out") = None →
  save_raises w ("out/" +:+ ns_desc args +:+ ".png") = None →
  ∃ w' img,
    main env fuel w args
    = Some (w',
            (t ++ [RasterioOpen (geotiff_local_path (ns_desc args));
                   DatasetRead 1; DatasetRead 2; DatasetRead 3;
                   PathMkdir "" ["out"];
                   ImageSave ("out/" +:+ ns_desc args +:+ ".png")],
             Returned tt))
    ∧ files w' !! file_id w ("out/" +:+ ns_desc args +:+ ".png")
      = Some (ImageFile img)
    ∧ im_mode img = "RGB"
    ∧ im_size img = (width src, height src)
    ∧ ("", ["out"]) ∈ dirs w'.
Proof.
  intros Hregion Hexport Hfile Hcount Hmk Hsave.
  unfold main. rewrite Hregion, Hexport.
  unfold arr_from_geotiff_default.
  rewrite (arr_from_geotiff_returns w _ src);
    [| by rewrite geotiff_local_path_normalized
     | unfold band_in_range; lia..].
  rewrite geotiff_local_path_normalized.
  unfold save_img_default. rewrite save_img_after_mkdir by exact Hmk.
  change (save_img_target (ns_desc args) "png" "out/")
    with ("out/" +:+ ns_desc args +:+ ".png").
  cbv zeta. rewrite Hsave.
  eexists _, _. split; [reflexivity|]. simpl.
  split; [apply lookup_insert_eq|]. split; [done|]. split; [done|].
  apply elem_of_union_r. set_solver.
Qed.

Lemma main_pipeline_witness :
  ∃ t w' img,
    extract_geotiff_from_gee quiet_remote 1 "USDA/NAIP/DOQQ" ["R"; "G"; "B"]
      "2017-01-01" "2018-12-31" "UtiliGEE_Exports" "nyc" 30
      default_xmin default_ymin default_xmax default_ymax
    = Some (t, Returned tt)
    ∧ main quiet_remote 1 (world_with "raw/nyc.tif" flat_raster)
        (default_args "nyc")
      = Some (w',
              (t ++ [RasterioOpen "raw/nyc.tif";
                     DatasetRead 1; DatasetRead 2; DatasetRead 3;
                     PathMkdir "" ["out"]; ImageSave "out/nyc.png"],
               Returned tt))
    ∧ files w' !! file_id (world_with "raw/nyc.tif" flat_raster)
                    "out/nyc.png"
      = Some (ImageFile img)
    ∧ im_mode img = "RGB"
    ∧ im_size img = (3, 2)
    ∧ ("", ["out"]) ∈ dirs w'.
Proof.
  eexists.
  destruct (main_pipeline quiet_remote 1
              (world_with "raw/nyc.tif" flat_raster) (default_args "nyc")
              default_xmin default_ymin default_xmax default_ymax _
              flat_raster eq_refl eq_refl eq_refl (le_n 3) eq_refl eq_refl)
    as (w' & img & Hmain).
  exists w', img. split; [reflexivity | exact Hmain].
Defined.

(** X17: however [main] ends, it removes no directory and leaves every
    file other than the one that [out/{desc}.png] names as it is. *)
Theorem main_frame (env : Remote) (fuel : nat) (w w' : World)
    (args : Namespace) (run : Run unit) :
  main env fuel w args = Some (w', run) →
  dirs w ⊆ dirs w'
  ∧ ∀ id, id ≠ file_id w ("out/" +:+ ns_desc args +:+ ".png") →
      files w' !! id = files w !! id.
Proof.
  unfold main.
  destruct (ns_region args) as [|a [|b [|c [|d [|e rest]]]]];
    try (intros [= <- _]; done).
  destruct (extract_geotiff_from_gee _ _ _ _ _ _ _ _ _ _ _ _ _)
    as [[t1 [u|e]]|]; [| intros [= <- _]; done | done].
  destruct (arr_from_geotiff_default w _) as [t2 [img_arr|e]];
    [| intros [= <- _]; done].
  unfold save_img_default.
  destruct (save_img_frame w img_arr (ns_desc args) "png" "out/")
    as (_ & _ & Hdirs & Hfiles).
  destruct (save_img w img_arr (ns_desc args) "png" "out/")
    as [w2 [t3 r]].
  intros [= <- _]. split; [exact Hdirs | exact Hfiles].
Qed.

Lemma main_frame_witness :
  ∃ w' run,
    main quiet_remote 1 (world_with "raw/nyc.tif" flat_raster)
      (default_args "nyc")
    = Some (w', run)
    ∧ dirs (world_with "raw/nyc.tif" flat_raster) ⊆ dirs w'
    ∧ ∀ id,
        id ≠ file_id (world_with "raw/nyc.tif" flat_raster)
               ("out/" +:+ "nyc" +:+ ".png") →
        files w' !! id
        = files (world_with "raw/nyc.tif" flat_raster) !! id.
Proof.
  eexists _, _. split; [reflexivity|].
  exact (main_frame quiet_remote 1 (world_with "raw/nyc.tif" flat_raster) _
           (default_args "nyc") _ eq_refl).
Defined.

(** With the description [./nyc] the write goes to [out/./nyc.png],
    which names the file [out/nyc.png]: an image that was there is
    replaced. *)
Example main_overwrites_under_other_spelling :
  ∃ w' run img,
    main quiet_remote 1
      (with_files (world_with "raw/nyc.tif" flat_raster)
         {[ Path "raw/nyc.tif" := RasterFile flat_raster;
            Path "out/nyc.png" := ImageFile one_pixel ]})
      (default_args "./nyc")
    = Some (w', run)
    ∧ files w' !! Path "out/nyc.png" = Some (ImageFile img)
    ∧ im_size img = (3, 2).
Proof. eexists _, _, _. split; [reflexivity|]. split; reflexivity. Qed.
